(** * Swappo authentication service: token and credential core

    A shallow embedding of [app/auth.py], [app/database.py] (the in-memory
    backend, selected when [DATABASE_URL] is unset) and the request handlers
    of [app/main.py], followed by the properties of the token life cycle and
    of the credential checks.

    Conventions of the embedding.
    - A Python [str] is a [string]: the sequence of the bytes of its UTF-8
      encoding, so [s.encode("utf-8")] is [list_byte_of_string s].
    - A [datetime] is a [Z]: whole seconds since the epoch, the resolution
      at which [python-jose] writes and checks the [exp] claim.  A
      [timedelta] is a [Z] number of seconds.
    - A handler that raises [HTTPException] returns [Raise e]; one that
      returns normally returns [Ok v].
    - The module-level dictionaries [users_db] and [user_email_index] are
      the two fields of an explicit [Store] that is passed in and out.
    - What a handler reads from its environment (the clock, [uuid.uuid4()],
      [bcrypt.gensalt()]) is an explicit argument of the embedded function.
    - The third-party libraries [jose.jwt] and [bcrypt] are parameters of
      the development; the contract every theorem relies on is stated as a
      hypothesis next to the theorems.
    - The functions above take the calls of [bcrypt] and the arithmetic of
      [datetime] as returning.  The definitions whose name ends in [_exn]
      keep the exceptions of these calls and the microseconds of the clock;
      where no library call raises they give the same answers (lemmas
      [login_exn_refines], [create_access_token_exn_whole_seconds] and
      [create_refresh_token_exn_whole_seconds]). *)

From Stdlib Require Import ZArith String Ascii List Lia.
From Stdlib Require Strings.Byte.
From stdpp Require Import base option countable gmap strings list fin_maps.

Local Open Scope Z_scope.
Local Open Scope string_scope.

(** ** JSON values and claim sets *)

(** The values a claim of a decoded token can hold. *)
Inductive jval : Type :=
  | JNull
  | JBool (b : bool)
  | JInt (z : Z)
  | JStr (s : string).

#[global] Instance jval_eq_dec : EqDecision jval.
Proof. solve_decision. Defined.

Definition jval_to_sum (v : jval) : unit + bool + Z + string :=
  match v with
  | JNull => inl (inl (inl tt))
  | JBool b => inl (inl (inr b))
  | JInt z => inl (inr z)
  | JStr s => inr s
  end.

Definition jval_of_sum (x : unit + bool + Z + string) : jval :=
  match x with
  | inl (inl (inl _)) => JNull
  | inl (inl (inr b)) => JBool b
  | inl (inr z) => JInt z
  | inr s => JStr s
  end.

#[global] Instance jval_countable : Countable jval.
Proof.
  refine (inj_countable' jval_to_sum jval_of_sum _).
  intros []; reflexivity.
Defined.

(** A claim set is a Python [dict] with string keys. *)
Abbreviation claims := (gmap string jval).

(** [d.get(k)]: the value under [k], Python's [None] when [k] is missing. *)
Definition dict_get (d : claims) (k : string) : jval :=
  default JNull (d !! k).

(** Python truthiness, as used by [if x:] and [not x]. *)
Definition str_truthy (s : string) : bool :=
  match s with
  | EmptyString => false
  | String _ _ => true
  end.

Definition truthy (v : jval) : bool :=
  match v with
  | JNull => false
  | JBool b => b
  | JInt z => negb (z =? 0)%Z
  | JStr s => str_truthy s
  end.

(** [x is None]. *)
Definition is_none (v : jval) : bool :=
  match v with
  | JNull => true
  | _ => false
  end.

(** ** HTTP errors and handler results *)

Record HTTPException : Type := mkHTTPException {
  status_code : Z;
  detail : string;
  headers : option (list (string * string))
}.

#[global] Instance HTTPException_eq_dec : EqDecision HTTPException.
Proof. solve_decision. Defined.

Definition HTTP_400_BAD_REQUEST : Z := 400.
Definition HTTP_401_UNAUTHORIZED : Z := 401.
Definition HTTP_403_FORBIDDEN : Z := 403.
Definition HTTP_404_NOT_FOUND : Z := 404.

Inductive result (A : Type) : Type :=
  | Ok (a : A)
  | Raise (e : HTTPException).

Arguments Ok {A} a.
Arguments Raise {A} e.

(** [result] is an error monad; [x ← r; k] is stdpp's notation for bind. *)
#[global] Instance result_ret : MRet result := fun A a => Ok a.

#[global] Instance result_bind : MBind result := fun A B k r =>
  match r with
  | Ok a => k a
  | Raise e => Raise e
  end.

(** The status a client sees: the route's success status, or the status of
    the exception the handler raised. *)
Definition response_status {A : Type} (success : Z) (r : result A) : Z :=
  match r with
  | Ok _ => success
  | Raise e => status_code e
  end.

(** The outcome of a call that can raise any exception: an [HTTPException]
    is one exception among the others. *)
Inductive PyException : Type :=
  | HTTPError (e : HTTPException)
  | ValueError
  | OverflowError.

Inductive exn (A : Type) : Type :=
  | Returns (a : A)
  | Throws (e : PyException).

Arguments Returns {A} a.
Arguments Throws {A} e.

#[global] Instance exn_ret : MRet exn := fun A a => Returns a.

#[global] Instance exn_bind : MBind exn := fun A B k r =>
  match r with
  | Returns a => k a
  | Throws e => Throws e
  end.

(** The status a client sees: the server answers an [HTTPException] with
    its status code and any other exception with 500. *)
Definition http_status {A : Type} (success : Z) (o : exn A) : Z :=
  match o with
  | Returns _ => success
  | Throws (HTTPError e) => status_code e
  | Throws _ => 500
  end.

(** The errors [jose.jwt.decode] raises; all are subclasses of [JWTError]. *)
Inductive JWTError : Type :=
  | JWTError_invalid
  | ExpiredSignatureError
  | JWTClaimsError.

(** ** Records of [app/models.py] and the user dictionary *)

Record UserCreate : Type := mkUserCreate {
  uc_email : string;
  uc_username : string;
  uc_password : string;
  uc_full_name : option string
}.

Record UserLogin : Type := mkUserLogin {
  ul_email : string;
  ul_password : string
}.

Record UserResponse : Type := mkUserResponse {
  ur_id : string;
  ur_email : string;
  ur_username : string;
  ur_full_name : option string;
  ur_created_at : Z;
  ur_is_active : bool
}.

Record Token : Type := mkToken {
  access_token : string;
  refresh_token_ : string;
  token_type : string
}.

Record RefreshTokenRequest : Type := mkRefreshTokenRequest {
  rt_refresh_token : string
}.

Record ChangePassword : Type := mkChangePassword {
  old_password : string;
  new_password : string
}.

(** The dictionary [create_user] builds; its key set is fixed, so it is a
    record. *)
Record User : Type := mkUser {
  id : string;
  email : string;
  username : string;
  hashed_password : string;
  full_name : option string;
  created_at : Z;
  is_active : bool
}.

#[global] Instance User_eq_dec : EqDecision User.
Proof. solve_decision. Defined.

(** [UserResponse] built from the keys of a user dictionary: the extra key
    [hashed_password] is dropped. *)
Definition UserResponse_of (u : User) : UserResponse :=
  mkUserResponse (id u) (email u) (username u) (full_name u)
    (created_at u) (is_active u).

(** [Token(access_token=..., refresh_token=...)], [token_type] defaulted. *)
Definition Token_of (access refresh : string) : Token :=
  mkToken access refresh "bearer".

(** ** [app/database.py]: the in-memory store *)

Record Store : Type := mkStore {
  users_db : gmap string User;
  user_email_index : gmap string string
}.

Definition empty_store : Store := mkStore ∅ ∅.

Definition get_user_by_email (email : string) (st : Store) : option User :=
  match user_email_index st !! email with
  | Some user_id =>
      if str_truthy user_id then users_db st !! user_id else None
  | None => None
  end.

(** [users_db.get(user_id)].  The handlers pass the [sub] claim as decoded,
    so the key is a [jval]; only a string can be a key of [users_db]. *)
Definition get_user_by_id (user_id : jval) (st : Store) : option User :=
  match user_id with
  | JStr k => users_db st !! k
  | _ => None
  end.

(** [uuid4] is the value [str(uuid.uuid4())] takes in this call and [utcnow]
    the reading of the clock. *)
Definition create_user (email username hashed_password : string)
    (full_name : option string) (uuid4 : string) (utcnow : Z) (st : Store)
    : User * Store :=
  let user_id := uuid4 in
  let user :=
    mkUser user_id email username hashed_password full_name utcnow true in
  (user,
   mkStore (<[user_id := user]> (users_db st))
           (<[email := user_id]> (user_email_index st))).

Definition set_hashed_password (h : string) (u : User) : User :=
  mkUser (id u) (email u) (username u) h (full_name u) (created_at u)
    (is_active u).

Definition set_is_active (b : bool) (u : User) : User :=
  mkUser (id u) (email u) (username u) (hashed_password u) (full_name u)
    (created_at u) b.

Definition update_user_password (user_id : jval) (hashed_password : string)
    (st : Store) : bool * Store :=
  match user_id with
  | JStr k =>
      match users_db st !! k with
      | Some u =>
          (true,
           mkStore (<[k := set_hashed_password hashed_password u]> (users_db st))
                   (user_email_index st))
      | None => (false, st)
      end
  | _ => (false, st)
  end.

Definition deactivate_user (user_id : jval) (st : Store) : bool * Store :=
  match user_id with
  | JStr k =>
      match users_db st !! k with
      | Some u =>
          (true,
           mkStore (<[k := set_is_active false u]> (users_db st))
                   (user_email_index st))
      | None => (false, st)
      end
  | _ => (false, st)
  end.

#[global] Instance byte_eq_decision : EqDecision Byte.byte := Byte.byte_eq_dec.

(** ** A reference implementation of the two libraries

    [jose.jwt] and [bcrypt] are parameters of the service below.  This module
    gives one small implementation of each that meets the contract the
    theorems assume, so that every theorem can be run on a concrete input.
    A token is the binary numeral of the code of the pair (claims, key);
    a hash is the salt followed by the password. *)
Module RefLibs.

Fixpoint string_of_pos (p : positive) : string :=
  match p with
  | xH => EmptyString
  | xO q => String "0" (string_of_pos q)
  | xI q => String "1" (string_of_pos q)
  end.

Fixpoint pos_of_string (s : string) : option positive :=
  match s with
  | EmptyString => Some xH
  | String c r =>
      q ← pos_of_string r;
      if Ascii.eqb c "0" then Some (xO q)
      else if Ascii.eqb c "1" then Some (xI q)
      else None
  end.

Definition jwt_encode (c : claims) (key algorithm : string) : string :=
  string_of_pos (encode (c, key, algorithm)).

(** The signature check comes first, then the check of [exp]:
    a token is expired when [exp < now]. *)
Definition jwt_decode (token key : string) (algorithms : list string)
    (now : Z) : JWTError + claims :=
  match pos_of_string token ≫= decode with
  | Some (c, k, a) =>
      if bool_decide (k = key ∧ a ∈ algorithms) then
        match c !! "exp" with
        | Some (JInt e) => if (e <? now)%Z then inl ExpiredSignatureError else inr c
        | Some _ => inl JWTClaimsError
        | None => inr c
        end
      else inl JWTError_invalid
  | None => inl JWTError_invalid
  end.

Definition gensalt (s : list Byte.byte) : Prop := length s = 2%nat.

Definition hashpw (password salt : list Byte.byte) : list Byte.byte :=
  take 2 salt ++ password.

Definition checkpw (password hashed : list Byte.byte) : bool :=
  bool_decide (hashpw password hashed = hashed).

(** For the model of [bcrypt] that keeps its exceptions: the digest is the
    password itself, and a setting is accepted when it has 29 bytes. *)
Definition digest (password setting : list Byte.byte) : list Byte.byte :=
  password.

Definition valid_salt (setting : list Byte.byte) : bool :=
  bool_decide (length setting = 29%nat).

End RefLibs.

(** ** Sample data

    A store with an active user and a deactivated one, both with hashes of
    the reference [hashpw], and the configuration the examples run with. *)
Module Demo.

Definition access_key : string := "access-secret".
Definition refresh_key : string := "refresh-secret".
Definition access_minutes : Z := 30.
Definition refresh_days : Z := 7.

Definition salt_ab : list Byte.byte := [Byte.x61; Byte.x62].
Definition salt_cd : list Byte.byte := [Byte.x63; Byte.x64].

Definition alice : User :=
  mkUser "u1" "a@x.com" "alice" "abpw123456" None 1000 true.

Definition bob : User :=
  mkUser "u2" "b@x.com" "bob" "cdhunter22" (Some "Bob B") 1001 false.

Definition store : Store :=
  mkStore (<["u1" := alice]> (<["u2" := bob]> ∅))
          (<["a@x.com" := "u1"]> (<["b@x.com" := "u2"]> ∅)).

(** Two salts of the shape [bcrypt.gensalt()] gives, a password of 73
    bytes, and a store whose user has a hash of that shape. *)
Definition salt29_a : list Byte.byte :=
  list_byte_of_string "$2b$12$abcdefghijklmnopqrstuv".

Definition salt29_b : list Byte.byte :=
  list_byte_of_string "$2b$12$ABCDEFGHIJKLMNOPQRSTUV".

Definition password73 : string :=
  "0123456789012345678901234567890123456789012345678901234567890123456789abc".

Definition dave : User :=
  mkUser "u5" "d@x.com" "dave" "$2b$12$abcdefghijklmnopqrstuvdavepass1" None
    1002 true.

Definition store5 : Store :=
  mkStore (<["u5" := dave]> ∅) (<["d@x.com" := "u5"]> ∅).

End Demo.

(** ** The service: [app/auth.py] and [app/main.py] *)
Section Service.

(** *** Configuration, read from the environment at start-up *)
Variable SECRET_KEY : string.
Variable REFRESH_SECRET_KEY : string.
Variable ACCESS_TOKEN_EXPIRE_MINUTES : Z.
Variable REFRESH_TOKEN_EXPIRE_DAYS : Z.

Definition ALGORITHM : string := "HS256".

(** *** The libraries *)

(** [jwt.encode(claims, key, algorithm=...)]. *)
Variable jwt_encode : claims -> string -> string -> string.

(** [jwt.decode(token, key, algorithms=...)] at clock reading [now]:
    the claims, or the [JWTError] raised. *)
Variable jwt_decode : string -> string -> list string -> Z -> JWTError + claims.

(** [bcrypt.hashpw(password, salt)] and [bcrypt.checkpw(password, hashed)]. *)
Variable bcrypt_hashpw : list Byte.byte -> list Byte.byte -> list Byte.byte.
Variable bcrypt_checkpw : list Byte.byte -> list Byte.byte -> bool.

(** The values [bcrypt.gensalt()] can return. *)
Variable bcrypt_gensalt : list Byte.byte -> Prop.

(** *** [app/auth.py] *)

Definition verify_password (plain_password hashed_password : string) : bool :=
  bcrypt_checkpw (list_byte_of_string plain_password)
                 (list_byte_of_string hashed_password).

(** [salt] is the value [bcrypt.gensalt()] returns in this call. *)
Definition get_password_hash (password : string) (salt : list Byte.byte)
    : string :=
  let hashed := bcrypt_hashpw (list_byte_of_string password) salt in
  string_of_list_byte hashed.

Definition timedelta_minutes (m : Z) : Z := 60 * m.
Definition timedelta_days (d : Z) : Z := 86400 * d.

(** [if expires_delta:] is false for [None] and for the zero [timedelta]. *)
Definition timedelta_truthy (d : option Z) : bool :=
  match d with
  | Some x => negb (x =? 0)%Z
  | None => false
  end.

(** The value of the local [expire] in [create_access_token]. *)
Definition access_token_expire (expires_delta : option Z) (utcnow : Z) : Z :=
  if timedelta_truthy expires_delta
  then utcnow + default 0 expires_delta
  else utcnow + timedelta_minutes ACCESS_TOKEN_EXPIRE_MINUTES.

Definition create_access_token (data : claims) (expires_delta : option Z)
    (utcnow : Z) : string :=
  let to_encode := data in
  let expire := access_token_expire expires_delta utcnow in
  let to_encode :=
    <["type" := JStr "access"]> (<["exp" := JInt expire]> to_encode) in
  jwt_encode to_encode SECRET_KEY ALGORITHM.

(** The value of the local [expire] in [create_refresh_token]. *)
Definition refresh_token_expire (utcnow : Z) : Z :=
  utcnow + timedelta_days REFRESH_TOKEN_EXPIRE_DAYS.

Definition create_refresh_token (data : claims) (utcnow : Z) : string :=
  let to_encode := data in
  let expire := refresh_token_expire utcnow in
  let to_encode :=
    <["type" := JStr "refresh"]> (<["exp" := JInt expire]> to_encode) in
  jwt_encode to_encode REFRESH_SECRET_KEY ALGORITHM.

(** Only [JWTError] is caught; the [HTTPException] raised for a wrong
    [type] claim is not a [JWTError] and leaves the [try] as it is. *)
Definition verify_token (token token_type : string) (utcnow : Z)
    : result claims :=
  let secret :=
    if String.eqb token_type "access" then SECRET_KEY
    else REFRESH_SECRET_KEY in
  match jwt_decode token secret [ALGORITHM] utcnow with
  | inr payload =>
      if bool_decide (dict_get payload "type" ≠ JStr token_type) then
        Raise (mkHTTPException HTTP_401_UNAUTHORIZED "Invalid token type" None)
      else Ok payload
  | inl _ =>
      Raise (mkHTTPException HTTP_401_UNAUTHORIZED
               "Could not validate credentials"
               (Some [("WWW-Authenticate", "Bearer")]))
  end.

(** The dictionary [{"user_id": ..., "email": ...}]. *)
Record CurrentUser : Type := mkCurrentUser {
  cu_user_id : jval;
  cu_email : jval
}.

(** [credentials] is the bearer token [HTTPBearer] took from the
    [Authorization] header. *)
Definition get_current_user (credentials : string) (utcnow : Z)
    : result CurrentUser :=
  let token := credentials in
  payload ← verify_token token "access" utcnow;
  let user_id := dict_get payload "sub" in
  let email := dict_get payload "email" in
  if is_none user_id || is_none email then
    Raise (mkHTTPException HTTP_401_UNAUTHORIZED
             "Could not validate credentials" None)
  else Ok (mkCurrentUser user_id email).

(** *** [app/main.py]: the request handlers, in-memory backend *)

(** [POST /api/v1/auth/register].  [salt], [uuid4] and [utcnow] are what
    [bcrypt.gensalt()], [uuid.uuid4()] and the clock give in this call. *)
Definition register (user_data : UserCreate) (salt : list Byte.byte)
    (uuid4 : string) (utcnow : Z) (st : Store) : result UserResponse * Store :=
  let existing_user := get_user_by_email (uc_email user_data) st in
  match existing_user with
  | Some _ =>
      (Raise (mkHTTPException HTTP_400_BAD_REQUEST
                "Email already registered" None), st)
  | None =>
      let hashed_password := get_password_hash (uc_password user_data) salt in
      let '(user, st') :=
        create_user (uc_email user_data) (uc_username user_data)
          hashed_password (uc_full_name user_data) uuid4 utcnow st in
      (Ok (UserResponse_of user), st')
  end.

(** The dictionary [{"sub": ..., "email": ...}] passed as [data]. *)
Definition token_data (sub email : jval) : claims :=
  <["sub" := sub]> (<["email" := email]> ∅).

(** [POST /api/v1/auth/login].  [t_access] and [t_refresh] are the clock
    readings of the two token constructors. *)
Definition login (user_credentials : UserLogin) (t_access t_refresh : Z)
    (st : Store) : result Token :=
  match get_user_by_email (ul_email user_credentials) st with
  | None =>
      Raise (mkHTTPException HTTP_401_UNAUTHORIZED
               "Incorrect email or password" None)
  | Some user =>
      if negb (verify_password (ul_password user_credentials)
                 (hashed_password user)) then
        Raise (mkHTTPException HTTP_401_UNAUTHORIZED
                 "Incorrect email or password" None)
      else if negb (is_active user) then
        Raise (mkHTTPException HTTP_403_FORBIDDEN
                 "Account is deactivated" None)
      else
        let access_token :=
          create_access_token
            (token_data (JStr (id user)) (JStr (email user)))
            (Some (timedelta_minutes ACCESS_TOKEN_EXPIRE_MINUTES)) t_access in
        let refresh_token :=
          create_refresh_token
            (token_data (JStr (id user)) (JStr (email user))) t_refresh in
        Ok (Token_of access_token refresh_token)
  end.

(** [not user or not user.get("is_active", True)]. *)
Definition missing_or_inactive (user : option User) : bool :=
  match user with
  | None => true
  | Some u => negb (is_active u)
  end.

(** [POST /api/v1/auth/refresh].  [t_verify] is the clock reading of
    [jwt.decode]. *)
Definition refresh_token (token_data_ : RefreshTokenRequest)
    (t_verify t_access t_refresh : Z) (st : Store) : result Token :=
  payload ← verify_token (rt_refresh_token token_data_) "refresh" t_verify;
  let user_id := dict_get payload "sub" in
  let email := dict_get payload "email" in
  if negb (truthy user_id) || negb (truthy email) then
    Raise (mkHTTPException HTTP_401_UNAUTHORIZED "Invalid refresh token" None)
  else
    let user := get_user_by_id user_id st in
    if missing_or_inactive user then
      Raise (mkHTTPException HTTP_401_UNAUTHORIZED "Invalid user" None)
    else
      let access_token :=
        create_access_token (token_data user_id email)
          (Some (timedelta_minutes ACCESS_TOKEN_EXPIRE_MINUTES)) t_access in
      let new_refresh_token :=
        create_refresh_token (token_data user_id email) t_refresh in
      Ok (Token_of access_token new_refresh_token).

(** [GET /api/v1/auth/me]. *)
Definition get_current_user_info (credentials : string) (utcnow : Z)
    (st : Store) : result UserResponse :=
  current_user ← get_current_user credentials utcnow;
  match get_user_by_id (cu_user_id current_user) st with
  | None => Raise (mkHTTPException HTTP_404_NOT_FOUND "User not found" None)
  | Some user => Ok (UserResponse_of user)
  end.

(** [POST /api/v1/auth/change-password].  The value returned on success is
    the [message] of the response body. *)
Definition change_password (password_data : ChangePassword)
    (credentials : string) (salt : list Byte.byte) (utcnow : Z) (st : Store)
    : result string * Store :=
  match get_current_user credentials utcnow with
  | Raise e => (Raise e, st)
  | Ok current_user =>
      match get_user_by_id (cu_user_id current_user) st with
      | None =>
          (Raise (mkHTTPException HTTP_404_NOT_FOUND "User not found" None), st)
      | Some user =>
          if negb (verify_password (old_password password_data)
                     (hashed_password user)) then
            (Raise (mkHTTPException HTTP_400_BAD_REQUEST
                      "Incorrect password" None), st)
          else
            let new_hashed_password :=
              get_password_hash (new_password password_data) salt in
            let '(_, st') :=
              update_user_password (cu_user_id current_user)
                new_hashed_password st in
            (Ok "Password changed successfully", st')
      end
  end.

(** *** The calls that can raise

    The definitions above take the calls of [bcrypt] and the arithmetic of
    [datetime] as returning.  The ones below keep their exceptions and the
    microseconds of the clock.  An [HTTPException] is one exception among
    the others; the server answers it with its status and answers any other
    exception with 500. *)
(** Modelled from the spec: the library [bcrypt] is not part of the
    repository.  Sections 1 and 4.2 give its contract: the output of the
    hasher embeds the salt, and verification hashes the plaintext with the
    embedded salt and compares.  [bcrypt_digest password setting] stands for
    the hash proper; nothing is assumed of it. *)
Variable bcrypt_digest : list Byte.byte -> list Byte.byte -> list Byte.byte.

(** Modelled from the spec: the 29-byte settings (version, cost and 22 salt
    characters, as [bcrypt.gensalt()] writes them) that [bcrypt.hashpw]
    reads; on any other it raises [ValueError]. *)
Variable bcrypt_valid_salt : list Byte.byte -> bool.

(** Modelled from the spec: [bcrypt.hashpw(password, salt)].  The setting is
    read from the first 29 bytes of [salt], so a hash can be passed where a
    salt is expected, and is written in front of the digest.  bcrypt 5.0.0
    raises [ValueError] for a password of more than 72 bytes. *)
Definition bcrypt_hashpw_exn (password salt : list Byte.byte)
    : exn (list Byte.byte) :=
  if (72 <? length password)%nat then Throws ValueError
  else
    let setting := take 29 salt in
    if bcrypt_valid_salt setting
    then Returns (setting ++ bcrypt_digest password setting)%list
    else Throws ValueError.

(** Modelled from the spec: [bcrypt.checkpw(password, hashed)] hashes the
    password with [hashed] as the salt and compares the result with
    [hashed]. *)
Definition bcrypt_checkpw_exn (password hashed : list Byte.byte) : exn bool :=
  ret ← bcrypt_hashpw_exn password hashed;
  Returns (bool_decide (ret = hashed)).

(** Modelled from the spec: the values [bcrypt.gensalt()] can return. *)
Definition bcrypt_gensalt_exn (salt : list Byte.byte) : Prop :=
  length salt = 29%nat /\ bcrypt_valid_salt salt = true.

(** [verify_password] and [get_password_hash] of [app/auth.py], with the
    exception of the library call. *)
Definition verify_password_exn (plain_password hashed_password : string)
    : exn bool :=
  bcrypt_checkpw_exn (list_byte_of_string plain_password)
                     (list_byte_of_string hashed_password).

Definition get_password_hash_exn (password : string) (salt : list Byte.byte)
    : exn string :=
  hashed ← bcrypt_hashpw_exn (list_byte_of_string password) salt;
  Returns (string_of_list_byte hashed).

(** A [datetime] is a number of microseconds since the epoch, between
    [datetime.min] and [datetime.max]; a [timedelta] is a number of
    microseconds between [timedelta.min] and [timedelta.max]. *)
Definition MICROSECONDS : Z := 1000000.
Definition datetime_min : Z := -62135596800000000.
Definition datetime_max : Z := 253402300799999999.
Definition timedelta_min : Z := -86399999913600000000.
Definition timedelta_max : Z := 86399999999999999999.

(** [timedelta(minutes=m)] and [timedelta(days=d)]. *)
Definition timedelta_of_minutes (m : Z) : exn Z :=
  let td := m * 60 * MICROSECONDS in
  if ((timedelta_min <=? td) && (td <=? timedelta_max))%Z then Returns td
  else Throws OverflowError.

Definition timedelta_of_days (d : Z) : exn Z :=
  let td := d * 86400 * MICROSECONDS in
  if ((timedelta_min <=? td) && (td <=? timedelta_max))%Z then Returns td
  else Throws OverflowError.

(** [dt + td]. *)
Definition datetime_add (dt td : Z) : exn Z :=
  if ((datetime_min <=? dt + td) && (dt + td <=? datetime_max))%Z
  then Returns (dt + td)
  else Throws OverflowError.

(** [timegm(dt.utctimetuple())], the whole seconds [jwt.encode] writes
    for a [datetime] claim. *)
Definition timegm (dt : Z) : Z := dt / MICROSECONDS.

Definition create_access_token_exn (data : claims) (expires_delta : option Z)
    (utcnow : Z) : exn string :=
  let to_encode := data in
  expire ←
    (if timedelta_truthy expires_delta
     then datetime_add utcnow (default 0 expires_delta)
     else
       td ← timedelta_of_minutes ACCESS_TOKEN_EXPIRE_MINUTES;
       datetime_add utcnow td);
  let to_encode :=
    <["type" := JStr "access"]> (<["exp" := JInt (timegm expire)]> to_encode) in
  Returns (jwt_encode to_encode SECRET_KEY ALGORITHM).

Definition create_refresh_token_exn (data : claims) (utcnow : Z)
    : exn string :=
  let to_encode := data in
  td ← timedelta_of_days REFRESH_TOKEN_EXPIRE_DAYS;
  expire ← datetime_add utcnow td;
  let to_encode :=
    <["type" := JStr "refresh"]> (<["exp" := JInt (timegm expire)]> to_encode) in
  Returns (jwt_encode to_encode REFRESH_SECRET_KEY ALGORITHM).

(** [login] of [app/main.py] with the exceptions of the calls it makes. *)
Definition login_exn (user_credentials : UserLogin) (t_access t_refresh : Z)
    (st : Store) : exn Token :=
  match get_user_by_email (ul_email user_credentials) st with
  | None =>
      Throws (HTTPError (mkHTTPException HTTP_401_UNAUTHORIZED
                           "Incorrect email or password" None))
  | Some user =>
      verified ← verify_password_exn (ul_password user_credentials)
                   (hashed_password user);
      if negb verified then
        Throws (HTTPError (mkHTTPException HTTP_401_UNAUTHORIZED
                             "Incorrect email or password" None))
      else if negb (is_active user) then
        Throws (HTTPError (mkHTTPException HTTP_403_FORBIDDEN
                             "Account is deactivated" None))
      else
        expires_delta ← timedelta_of_minutes ACCESS_TOKEN_EXPIRE_MINUTES;
        access_token ←
          create_access_token_exn
            (token_data (JStr (id user)) (JStr (email user)))
            (Some expires_delta) t_access;
        refresh_token ←
          create_refresh_token_exn
            (token_data (JStr (id user)) (JStr (email user))) t_refresh;
        Returns (Token_of access_token refresh_token)
  end.

(** *** States of the store the service can reach

    The store starts empty and changes only through [register],
    [change_password] and [deactivate_user]; [str(uuid.uuid4())] is never
    the empty string. *)
Inductive reachable : Store -> Prop :=
  | reachable_empty : reachable empty_store
  | reachable_register user_data salt uuid4 utcnow st :
      reachable st -> str_truthy uuid4 = true ->
      reachable (snd (register user_data salt uuid4 utcnow st))
  | reachable_change_password password_data credentials salt utcnow st :
      reachable st ->
      reachable (snd (change_password password_data credentials salt utcnow st))
  | reachable_deactivate user_id st :
      reachable st ->
      reachable (snd (deactivate_user user_id st)).

(** The store has the email: the lookup by email finds a user. *)
Definition email_registered (st : Store) (e : string) : Prop :=
  is_Some (get_user_by_email e st).

(** Some record of [users_db] carries the email. *)
Definition email_held (st : Store) (e : string) : Prop :=
  exists k u, users_db st !! k = Some u /\ email u = e.

(** Every record is the one its own email leads to. *)
Definition email_index_consistent (st : Store) : Prop :=
  forall k u, users_db st !! k = Some u ->
    user_email_index st !! email u = Some k /\ str_truthy k = true.

(** No two records carry the same email. *)
Definition emails_unique (st : Store) : Prop :=
  forall k1 k2 u1 u2,
    users_db st !! k1 = Some u1 -> users_db st !! k2 = Some u2 ->
    email u1 = email u2 -> k1 = k2.

(** [POST /api/v1/auth/logout]: the handler depends on [get_current_user]
    and does nothing else. *)
Definition logout (credentials : string) (utcnow : Z) : result string :=
  _ ← get_current_user credentials utcnow;
  Ok "Logged out successfully".

(** *** One operation on the store

    [register] with the id [uuid.uuid4()] gives, which is not empty and not
    in use, [change_password], or [deactivate_user]. *)
Inductive service_step : Store -> Store -> Prop :=
  | service_step_register user_data salt uuid4 utcnow st :
      str_truthy uuid4 = true -> users_db st !! uuid4 = None ->
      service_step st (snd (register user_data salt uuid4 utcnow st))
  | service_step_change_password password_data credentials salt utcnow st :
      service_step st
        (snd (change_password password_data credentials salt utcnow st))
  | service_step_deactivate user_id st :
      service_step st (snd (deactivate_user user_id st)).

(** The two dictionaries describe the same users: a record sits under its
    own id, which is not empty, and the index maps its email to that id;
    an email of the index leads to a record carrying it. *)
Definition store_wf (st : Store) : Prop :=
  (forall k u, users_db st !! k = Some u ->
     id u = k /\ str_truthy k = true /\
     user_email_index st !! email u = Some k) /\
  (forall e k, user_email_index st !! e = Some k ->
     exists u, users_db st !! k = Some u /\ email u = e).

(** The fields of a record no operation writes after [create_user]. *)
Definition same_identity (u u' : User) : Prop :=
  id u' = id u /\ email u' = email u /\ username u' = username u /\
  full_name u' = full_name u /\ created_at u' = created_at u.

(** *** The contract of the libraries

    Each theorem below depends on the hypotheses it uses and on no other;
    the reference libraries of [RefLibs] satisfy all of them. *)

(** What [jwt.decode] returns is the claim set the token was made from,
    whichever key is presented. *)
Hypothesis jwt_decode_payload :
  forall (c p : claims) key alg key' algs now,
    jwt_decode (jwt_encode c key alg) key' algs now = inr p -> p = c.

(** A token of the service's shape, decoded with the key that signed it,
    is accepted as long as [exp] has not passed. *)
Hypothesis jwt_decode_encode :
  forall (sub email typ key : string) (e now : Z),
    now <= e ->
    let c := <["type" := JStr typ]>
               (<["exp" := JInt e]> (token_data (JStr sub) (JStr email))) in
    jwt_decode (jwt_encode c key ALGORITHM) key [ALGORITHM] now = inr c.

(** A password checks against its own hash, for every password [hashpw]
    accepts; the model takes [hashpw] and [checkpw] as total. *)
Hypothesis bcrypt_checkpw_hashpw :
  forall password salt,
    bcrypt_gensalt salt ->
    bcrypt_checkpw password (bcrypt_hashpw password salt) = true.

(** A token [jwt.decode] accepts has not passed its [exp]. *)
Hypothesis jwt_decode_unexpired :
  forall (token key : string) algs (now e : Z) (p : claims),
    jwt_decode token key algs now = inr p ->
    p !! "exp" = Some (JInt e) -> now <= e.

(** ** Token kinds *)

Lemma verify_token_status token kind now e :
  verify_token token kind now = Raise e -> status_code e = 401.
Proof.
  unfold verify_token.
  destruct (jwt_decode _ _ _ _) as [err | payload]; [by intros [= <-]|].
  case_bool_decide; [by intros [= <-] | discriminate].
Qed.

Lemma verify_token_type token kind now payload :
  verify_token token kind now = Ok payload ->
  dict_get payload "type" = JStr kind.
Proof.
  unfold verify_token.
  destruct (jwt_decode _ _ _ _) as [err | p]; [discriminate|].
  case_bool_decide as Hty; [discriminate|].
  intros [= <-]. by destruct (decide (dict_get p "type" = JStr kind)).
Qed.

Lemma verify_issued_access data expires_delta t0 kind now q :
  verify_token (create_access_token data expires_delta t0) kind now = Ok q ->
  q = <["type" := JStr "access"]>
        (<["exp" := JInt (access_token_expire expires_delta t0)]> data).
Proof.
  unfold verify_token, create_access_token.
  destruct (jwt_decode _ _ _ _) as [err | q'] eqn:Hd; [discriminate|].
  apply jwt_decode_payload in Hd. subst q'.
  case_bool_decide; [discriminate|]. by intros [= <-].
Qed.

Lemma verify_issued_refresh data t0 kind now q :
  verify_token (create_refresh_token data t0) kind now = Ok q ->
  q = <["type" := JStr "refresh"]>
        (<["exp" := JInt (refresh_token_expire t0)]> data).
Proof.
  unfold verify_token, create_refresh_token.
  destruct (jwt_decode _ _ _ _) as [err | q'] eqn:Hd; [discriminate|].
  apply jwt_decode_payload in Hd. subst q'.
  case_bool_decide; [discriminate|]. by intros [= <-].
Qed.

Lemma access_token_wrong_kind data expires_delta t0 kind now :
  kind <> "access" ->
  exists e, verify_token (create_access_token data expires_delta t0) kind now
            = Raise e /\ status_code e = 401.
Proof.
  intros Hk.
  destruct (verify_token _ kind now) as [p | e] eqn:Hv.
  - exfalso. pose proof (verify_token_type _ _ _ _ Hv) as Hty.
    apply verify_issued_access in Hv. subst p.
    unfold dict_get in Hty. rewrite lookup_insert_eq in Hty.
    simpl in Hty. congruence.
  - exists e. split; [done|]. by eapply verify_token_status.
Qed.

Lemma refresh_token_wrong_kind data t0 kind now :
  kind <> "refresh" ->
  exists e, verify_token (create_refresh_token data t0) kind now
            = Raise e /\ status_code e = 401.
Proof.
  intros Hk.
  destruct (verify_token _ kind now) as [p | e] eqn:Hv.
  - exfalso. pose proof (verify_token_type _ _ _ _ Hv) as Hty.
    apply verify_issued_refresh in Hv. subst p.
    unfold dict_get in Hty. rewrite lookup_insert_eq in Hty.
    simpl in Hty. congruence.
  - exists e. split; [done|]. by eapply verify_token_status.
Qed.

(** C1. For every user id and email, the token [create_access_token] issues
    fails [verify_token] against the expected kind ["refresh"], and the
    token [create_refresh_token] issues fails it against ["access"]; both
    raise with status 401, at every clock reading, so also before the
    expiry. *)
Theorem token_kinds_do_not_cross :
  forall (user_id user_email : string) (expires_delta : option Z) (t0 now : Z),
    let data := token_data (JStr user_id) (JStr user_email) in
    (exists e,
        verify_token (create_access_token data expires_delta t0) "refresh" now
        = Raise e /\ status_code e = HTTP_401_UNAUTHORIZED) /\
    (exists e,
        verify_token (create_refresh_token data t0) "access" now
        = Raise e /\ status_code e = HTTP_401_UNAUTHORIZED).
Proof.
  intros. split.
  - by apply access_token_wrong_kind.
  - by apply refresh_token_wrong_kind.
Qed.


(** ** Login *)


(** ** Registration *)

(** *** The email index on reachable stores *)

Lemma consistent_update st k u0 u1 :
  users_db st !! k = Some u0 -> email u1 = email u0 ->
  email_index_consistent st ->
  email_index_consistent
    (mkStore (<[k := u1]> (users_db st)) (user_email_index st)).
Proof.
  intros Hk He Hc k' u'; simpl.
  destruct (decide (k = k')) as [<- | Hne].
  - rewrite lookup_insert_eq. intros [= <-]. rewrite He. by apply Hc.
  - rewrite lookup_insert_ne by done. apply Hc.
Qed.

Lemma update_user_password_consistent user_id h st :
  email_index_consistent st ->
  email_index_consistent (snd (update_user_password user_id h st)).
Proof.
  intros Hc. unfold update_user_password.
  destruct user_id as [| | |k]; try done.
  destruct (users_db st !! k) as [u|] eqn:Hk; [|done].
  simpl. by eapply consistent_update.
Qed.

Lemma deactivate_user_consistent user_id st :
  email_index_consistent st ->
  email_index_consistent (snd (deactivate_user user_id st)).
Proof.
  intros Hc. unfold deactivate_user.
  destruct user_id as [| | |k]; try done.
  destruct (users_db st !! k) as [u|] eqn:Hk; [|done].
  simpl. by eapply consistent_update.
Qed.

Lemma consistent_held_registered st e :
  email_index_consistent st -> email_held st e -> email_registered st e.
Proof.
  intros Hc (k & u & Hk & <-). destruct (Hc k u Hk) as [Hi Ht].
  exists u. unfold get_user_by_email. by rewrite Hi, Ht.
Qed.

Lemma register_consistent user_data salt uuid4 utcnow st :
  str_truthy uuid4 = true ->
  email_index_consistent st ->
  email_index_consistent (snd (register user_data salt uuid4 utcnow st)).
Proof.
  intros Hid Hc. unfold register.
  destruct (get_user_by_email (uc_email user_data) st) as [u0|] eqn:Hg; [done|].
  simpl. intros k u; simpl.
  destruct (decide (uuid4 = k)) as [<- | Hne].
  - rewrite lookup_insert_eq. intros [= <-]; simpl.
    by rewrite lookup_insert_eq.
  - rewrite lookup_insert_ne by done. intros Hk.
    destruct (Hc k u Hk) as [Hi Ht]. split; [|done].
    rewrite lookup_insert_ne; [done|]. intros He.
    assert (email_registered st (uc_email user_data)) as [u' Hu'].
    { apply consistent_held_registered; [done|]. by exists k, u. }
    congruence.
Qed.

Lemma change_password_consistent password_data credentials salt utcnow st :
  email_index_consistent st ->
  email_index_consistent
    (snd (change_password password_data credentials salt utcnow st)).
Proof.
  intros Hc. unfold change_password.
  destruct (get_current_user credentials utcnow) as [cu|e]; [|done].
  destruct (get_user_by_id (cu_user_id cu) st) as [u|]; [|done].
  destruct (negb _); [done|].
  pose proof (update_user_password_consistent (cu_user_id cu)
    (get_password_hash (new_password password_data) salt) st Hc) as Hu.
  by destruct (update_user_password _ _ st).
Qed.

Lemma reachable_consistent st :
  reachable st -> email_index_consistent st.
Proof.
  induction 1 as [| ud salt uuid4 utcnow st _ IH Hid
                  | pd cred salt utcnow st _ IH
                  | uid st _ IH].
  - intros k u; simpl. by rewrite lookup_empty.
  - by apply register_consistent.
  - by apply change_password_consistent.
  - by apply deactivate_user_consistent.
Qed.

Lemma consistent_emails_unique st :
  email_index_consistent st -> emails_unique st.
Proof.
  intros Hc k1 k2 u1 u2 H1 H2 He.
  destruct (Hc k1 u1 H1) as [Hi1 _]. destruct (Hc k2 u2 H2) as [Hi2 _].
  congruence.
Qed.

(** C3. Take a store in which the email is already held: the lookup by
    email finds a user or, on a store the service can reach, some record
    carries the email.  Then [register] with that email raises 400
    "Email already registered" whatever the username, password and full
    name are, and leaves the store as it was. *)
Theorem register_existing_email_conflict :
  forall (st : Store) (e : string),
    email_registered st e \/ (reachable st /\ email_held st e) ->
    forall (uname password : string) (fname : option string)
           (salt : list Byte.byte) (uuid4 : string) (utcnow : Z),
      register (mkUserCreate e uname password fname) salt uuid4 utcnow st
      = (Raise (mkHTTPException HTTP_400_BAD_REQUEST
                  "Email already registered" None), st).
Proof.
  intros st e Hheld uname password fname salt uuid4 utcnow.
  assert (email_registered st e) as [u Hu].
  { destruct Hheld as [Hreg | [Hr Hh]]; [done|].
    apply consistent_held_registered; [|done].
    by apply reachable_consistent. }
  unfold register; simpl. by rewrite Hu.
Qed.

(** C9. [create_user] does not check the email.  Called with an email the
    index already maps to a user, and a fresh id, it returns a user all the
    same: the first record stays in [users_db], a second record with the
    same email is added, the index now maps the email to the new id and the
    lookup by email finds the new record, so the emails of the store are no
    longer unique.  [register], which looks the email up first, keeps the
    index consistent and the emails unique. *)
Theorem create_user_does_not_check_email :
  forall (st : Store) (e : string) (k1 : string) (u1 : User)
         (uname hashed : string) (fname : option string) (k2 : string)
         (utcnow : Z),
    user_email_index st !! e = Some k1 ->
    users_db st !! k1 = Some u1 ->
    k2 <> k1 ->
    let user := fst (create_user e uname hashed fname k2 utcnow st) in
    let st' := snd (create_user e uname hashed fname k2 utcnow st) in
    (user = mkUser k2 e uname hashed fname utcnow true /\
     users_db st' !! k1 = Some u1 /\
     users_db st' !! k2 = Some user /\
     user_email_index st' !! e = Some k2 /\
     (str_truthy k2 = true -> get_user_by_email e st' = Some user) /\
     (email u1 = e -> ~ emails_unique st')) /\
    (forall user_data salt uuid4 now s,
        str_truthy uuid4 = true ->
        email_index_consistent s ->
        email_index_consistent (snd (register user_data salt uuid4 now s)) /\
        emails_unique (snd (register user_data salt uuid4 now s))).
Proof.
  intros st e k1 u1 uname hashed fname k2 utcnow Hi Hk Hne user st'.
  split.
  - subst user st'; simpl.
    rewrite lookup_insert_ne by done. rewrite !lookup_insert_eq.
    repeat split; try done.
    + intros Ht. unfold get_user_by_email; simpl.
      by rewrite lookup_insert_eq, Ht, lookup_insert_eq.
    + intros He Hu. apply Hne.
      eapply (Hu k2 k1); simpl.
      * apply lookup_insert_eq.
      * by rewrite lookup_insert_ne.
      * done.
  - intros ud salt uuid4 now s Hid Hc.
    pose proof (register_consistent ud salt uuid4 now s Hid Hc) as Hc'.
    split; [done|]. by apply consistent_emails_unique.
Qed.


(** ** Refresh *)

Lemma deactivate_user_lookup k u st :
  users_db st !! k = Some u ->
  deactivate_user (JStr k) st
  = (true, mkStore (<[k := set_is_active false u]> (users_db st))
                   (user_email_index st)).
Proof. intros Hk. unfold deactivate_user. by rewrite Hk. Qed.

Lemma refresh_token_status req tv ta tr st e :
  refresh_token req tv ta tr st = Raise e -> status_code e = 401.
Proof.
  unfold refresh_token.
  destruct (verify_token _ _ _) as [p|e'] eqn:Hv; simpl.
  - destruct (_ || _); [by intros [= <-]|].
    destruct (missing_or_inactive _); [by intros [= <-] | discriminate].
  - intros [= <-]. by eapply verify_token_status.
Qed.

Lemma refresh_token_inactive req tv ta tr st p k :
  verify_token (rt_refresh_token req) "refresh" tv = Ok p ->
  dict_get p "sub" = JStr k ->
  missing_or_inactive (users_db st !! k) = true ->
  exists e, refresh_token req tv ta tr st = Raise e /\ status_code e = 401.
Proof.
  intros Hv Hsub Hm. unfold refresh_token. rewrite Hv; simpl.
  rewrite Hsub; simpl. rewrite Hm.
  destruct (_ || _); eauto.
Qed.

(** C4. Take a refresh token that verifies and carries user id [k].
    - If [users_db] has no record under [k], or the record has [is_active]
      false, [refresh_token] raises with status 401.
    - [refresh_token] returns a token pair only if the record exists and
      is active, and then the pair is a new access token and a new refresh
      token for the same [sub] and [email].
    - If the record exists, is active and both claims are truthy,
      [refresh_token] does return that pair.
    - After [deactivate_user] on [k], a refresh token issued to [k] before
      is refused with status 401 at every later clock reading. *)
Theorem refresh_requires_active_user :
  forall (st : Store) (token : string) (tv ta tr : Z) (p : claims)
         (k : string),
    verify_token token "refresh" tv = Ok p ->
    dict_get p "sub" = JStr k ->
    let req := mkRefreshTokenRequest token in
    let new_pair :=
      Token_of
        (create_access_token (token_data (JStr k) (dict_get p "email"))
           (Some (timedelta_minutes ACCESS_TOKEN_EXPIRE_MINUTES)) ta)
        (create_refresh_token (token_data (JStr k) (dict_get p "email")) tr) in
    (users_db st !! k = None \/
     (exists u, users_db st !! k = Some u /\ is_active u = false) ->
     exists e, refresh_token req tv ta tr st = Raise e /\
               status_code e = HTTP_401_UNAUTHORIZED) /\
    (forall t, refresh_token req tv ta tr st = Ok t ->
       t = new_pair /\
       exists u, users_db st !! k = Some u /\ is_active u = true) /\
    (forall u, users_db st !! k = Some u -> is_active u = true ->
       str_truthy k = true -> truthy (dict_get p "email") = true ->
       refresh_token req tv ta tr st = Ok new_pair) /\
    (forall user_email t0 tv' ta' tr' st',
       deactivate_user (JStr k) st = (true, st') ->
       exists e,
         refresh_token
           (mkRefreshTokenRequest
              (create_refresh_token
                 (token_data (JStr k) (JStr user_email)) t0))
           tv' ta' tr' st' = Raise e /\
         status_code e = HTTP_401_UNAUTHORIZED).
Proof.
  intros st token tv ta tr p k Hv Hsub req new_pair.
  split; [|split; [|split]].
  - intros Hbad. eapply (refresh_token_inactive req); eauto.
    destruct Hbad as [-> | (u & -> & Hu)]; simpl; [done | by rewrite Hu].
  - intros t. unfold refresh_token; simpl. rewrite Hv; simpl. rewrite Hsub.
    destruct (_ || _); [discriminate|]. simpl.
    destruct (users_db st !! k) as [u|]; simpl; [|discriminate].
    destruct (is_active u) eqn:Hu; simpl; [|discriminate].
    intros [= <-]. eauto.
  - intros u Hk Hu Ht He. unfold refresh_token; simpl. rewrite Hv; simpl.
    rewrite Hsub; simpl. by rewrite Ht, He, Hk; simpl; rewrite Hu.
  - intros user_email t0 tv' ta' tr' st' Hd.
    destruct (refresh_token _ tv' ta' tr' st') as [t|e] eqn:Hr.
    + exfalso. revert Hr. unfold refresh_token; simpl.
      destruct (verify_token (create_refresh_token _ _) _ _)
        as [q|e'] eqn:Hq; simpl; [|discriminate].
      assert (dict_get q "sub" = JStr k) as Hqs.
      { apply verify_issued_refresh in Hq. subst q.
        unfold dict_get, token_data. by simplify_map_eq. }
      rewrite Hqs. destruct (_ || _); [discriminate|]. simpl.
      unfold deactivate_user in Hd.
      destruct (users_db st !! k) as [u|] eqn:Hk; [|discriminate].
      injection Hd as <-. simpl. by rewrite lookup_insert_eq.
    + exists e. split; [done|]. by eapply refresh_token_status.
Qed.


(** ** Identification and change of password *)

(** An access token of the service, presented before its expiry,
    identifies the user it was issued to. *)
Lemma issued_access_token_identifies k e expires_delta t0 now :
  now <= access_token_expire expires_delta t0 ->
  get_current_user
    (create_access_token (token_data (JStr k) (JStr e)) expires_delta t0) now
  = Ok (mkCurrentUser (JStr k) (JStr e)).
Proof.
  intros Hle. unfold get_current_user, verify_token, create_access_token.
  simpl. rewrite jwt_decode_encode by done.
  unfold dict_get, token_data. by simplify_map_eq.
Qed.

Lemma update_user_password_lookup k u h st :
  users_db st !! k = Some u ->
  update_user_password (JStr k) h st
  = (true, mkStore (<[k := set_hashed_password h u]> (users_db st))
                   (user_email_index st)).
Proof. intros Hk. unfold update_user_password. by rewrite Hk. Qed.



(** ** Outstanding access tokens *)

Lemma UserResponse_of_set_hashed_password h u :
  UserResponse_of (set_hashed_password h u) = UserResponse_of u.
Proof. done. Qed.

(** [/me] gives the same answer before and after a change of the hash of
    one record, for every token and clock reading. *)
Lemma get_current_user_info_hash_update st k u h credentials now :
  users_db st !! k = Some u ->
  get_current_user_info credentials now
    (mkStore (<[k := set_hashed_password h u]> (users_db st))
             (user_email_index st))
  = get_current_user_info credentials now st.
Proof.
  intros Hk. unfold get_current_user_info.
  destruct (get_current_user credentials now) as [cu|e]; simpl; [|done].
  destruct (cu_user_id cu) as [| | |k']; simpl; try done.
  destruct (decide (k = k')) as [<- | Hne].
  - by rewrite lookup_insert_eq, Hk.
  - by rewrite lookup_insert_ne.
Qed.

Lemma issued_access_token_verifies k e expires_delta t0 now :
  now <= access_token_expire expires_delta t0 ->
  verify_token
    (create_access_token (token_data (JStr k) (JStr e)) expires_delta t0)
    "access" now
  = Ok (<["type" := JStr "access"]>
          (<["exp" := JInt (access_token_expire expires_delta t0)]>
             (token_data (JStr k) (JStr e)))).
Proof.
  intros Hle. unfold verify_token, create_access_token.
  simpl. rewrite jwt_decode_encode by done.
  unfold dict_get. by simplify_map_eq.
Qed.

Lemma issued_access_token_me st k e u expires_delta t0 now :
  users_db st !! k = Some u ->
  now <= access_token_expire expires_delta t0 ->
  get_current_user_info
    (create_access_token (token_data (JStr k) (JStr e)) expires_delta t0)
    now st
  = Ok (UserResponse_of u).
Proof.
  intros Hk Hle. unfold get_current_user_info.
  rewrite issued_access_token_identifies by done. simpl. by rewrite Hk.
Qed.

Lemma issued_access_token_change_password st k e u expires_delta t0 now
    old new salt :
  users_db st !! k = Some u ->
  now <= access_token_expire expires_delta t0 ->
  verify_password old (hashed_password u) = true ->
  change_password (mkChangePassword old new)
    (create_access_token (token_data (JStr k) (JStr e)) expires_delta t0)
    salt now st
  = (Ok "Password changed successfully",
     mkStore (<[k := set_hashed_password (get_password_hash new salt) u]>
                (users_db st))
             (user_email_index st)).
Proof.
  intros Hk Hle Hpw. unfold change_password.
  rewrite issued_access_token_identifies by done. simpl.
  by rewrite Hk, Hpw.
Qed.

(** C6. Take an access token issued to user [k], whose record exists, and
    let the user change the password with it, giving the old password that
    verifies, at a time [t1] before the expiry.  The change succeeds and
    stores the new hash; at every time [t2] up to the expiry the same token
    still verifies as an access token and [/me] with it still returns the
    user's view.  More generally [/me] answers every token at every time
    exactly as it did before the change: nothing in the verification reads
    the stored hash. *)
Theorem password_change_keeps_access_token :
  forall (st : Store) (k e : string) (user : User) (expires_delta : option Z)
         (t0 t1 t2 : Z) (old new : string) (salt : list Byte.byte),
    users_db st !! k = Some user ->
    t1 <= access_token_expire expires_delta t0 ->
    t2 <= access_token_expire expires_delta t0 ->
    verify_password old (hashed_password user) = true ->
    let token :=
      create_access_token (token_data (JStr k) (JStr e)) expires_delta t0 in
    let call := change_password (mkChangePassword old new) token salt t1 st in
    fst call = Ok "Password changed successfully" /\
    users_db (snd call) !! k
    = Some (set_hashed_password (get_password_hash new salt) user) /\
    (exists payload, verify_token token "access" t2 = Ok payload) /\
    get_current_user_info token t2 (snd call) = Ok (UserResponse_of user) /\
    (forall credentials now,
        get_current_user_info credentials now (snd call)
        = get_current_user_info credentials now st).
Proof.
  intros st k e user delta t0 t1 t2 old new salt Hk H1 H2 Hpw token call.
  subst call token.
  rewrite (issued_access_token_change_password st k e user) by done.
  simpl. split; [done|]. split; [by rewrite lookup_insert_eq|].
  split; [by rewrite issued_access_token_verifies; eauto|].
  split.
  - rewrite get_current_user_info_hash_update by done.
    by apply issued_access_token_me.
  - intros. by apply get_current_user_info_hash_update.
Qed.

(** C10. Neither [/me] nor [change_password] reads [is_active].  Take an
    access token issued to user [k] that has not expired.
    - In every store where the record of [k] exists with [is_active] false,
      [/me] answers 200 with the user's view, in which [is_active] is
      false, and [change_password] with an old password that verifies
      succeeds and stores the new hash.
    - In particular, in the store [deactivate_user] leaves, [/me] with a
      token issued before still answers 200 with the view of the
      deactivated record. *)
Theorem inactive_user_passes_me_and_change_password :
  forall (k e : string) (expires_delta : option Z) (t0 now : Z),
    now <= access_token_expire expires_delta t0 ->
    let token :=
      create_access_token (token_data (JStr k) (JStr e)) expires_delta t0 in
    (forall (st : Store) (user : User),
        users_db st !! k = Some user ->
        is_active user = false ->
        get_current_user_info token now st = Ok (UserResponse_of user) /\
        ur_is_active (UserResponse_of user) = false /\
        response_status 200 (get_current_user_info token now st) = 200 /\
        (forall old new salt,
            verify_password old (hashed_password user) = true ->
            change_password (mkChangePassword old new) token salt now st
            = (Ok "Password changed successfully",
               mkStore
                 (<[k := set_hashed_password (get_password_hash new salt)
                           user]> (users_db st))
                 (user_email_index st)))) /\
    (forall (st0 : Store) (user0 : User),
        users_db st0 !! k = Some user0 ->
        let st := snd (deactivate_user (JStr k) st0) in
        get_current_user_info token now st
        = Ok (UserResponse_of (set_is_active false user0)) /\
        response_status 200 (get_current_user_info token now st) = 200).
Proof.
  intros k e delta t0 now Hle token. subst token.
  assert (forall st user, users_db st !! k = Some user ->
            is_active user = false ->
            get_current_user_info
              (create_access_token (token_data (JStr k) (JStr e)) delta t0)
              now st = Ok (UserResponse_of user)) as Hme.
  { intros st user Hk _. by apply issued_access_token_me. }
  split.
  - intros st user Hk Hact. rewrite (Hme st user Hk Hact).
    split; [done|]. split; [done|]. split; [done|].
    intros old new salt Hpw.
    by apply issued_access_token_change_password.
  - intros st0 user0 Hk0 st. subst st.
    rewrite (deactivate_user_lookup k user0) by done. simpl.
    rewrite (Hme _ (set_is_active false user0)); [done | | done].
    simpl. apply lookup_insert_eq.
Qed.

(** ** The store operations of [app/database.py] *)

Lemma set_is_active_idem b u :
  set_is_active b (set_is_active b u) = set_is_active b u.
Proof. done. Qed.

(** X1. [deactivate_user] answers [True] exactly when the id is a key of
    [users_db]; otherwise the store is unchanged.  When it answers [True]
    the record under the id has [is_active] false and its other six fields
    as before; every other record, the key set and the email index stay as
    they were.  After the call no user under that id is active, and a
    second call changes nothing more. *)
Theorem deactivate_user_effect :
  forall (user_id : jval) (st : Store),
    let r := fst (deactivate_user user_id st) in
    let st' := snd (deactivate_user user_id st) in
    (r = true <-> is_Some (get_user_by_id user_id st)) /\
    (r = false -> st' = st) /\
    user_email_index st' = user_email_index st /\
    (forall k u,
        users_db st !! k = Some u ->
        users_db st' !! k
        = Some (if decide (user_id = JStr k)
                then mkUser (id u) (email u) (username u) (hashed_password u)
                       (full_name u) (created_at u) false
                else u)) /\
    (forall k, users_db st !! k = None -> users_db st' !! k = None) /\
    (forall u, get_user_by_id user_id st' = Some u -> is_active u = false) /\
    deactivate_user user_id st' = (r, st').
Proof.
  intros user_id st r st'. subst r st'. unfold deactivate_user.
  destruct user_id as [| | |k0]; cbn [fst snd users_db user_email_index];
    try (split; [split; [discriminate | by intros [? ?]]|];
         split; [done|]; split; [done|];
         split; [intros k u Hk; by rewrite decide_False by discriminate|];
         split; [done|]; split; [discriminate | done]).
  destruct (users_db st !! k0) as [u0|] eqn:Hk0;
    cbn [fst snd users_db user_email_index get_user_by_id].
  - split; [by split; eauto|]. split; [discriminate|]. split; [done|].
    split; [|split; [|split]].
    + intros k u Hk. destruct (decide (k0 = k)) as [<- | Hne].
      * rewrite lookup_insert_eq, decide_True by done.
        assert (u0 = u) as <- by congruence. done.
      * rewrite lookup_insert_ne by done.
        by rewrite decide_False by congruence.
    + intros k Hk. rewrite lookup_insert_ne; [done | congruence].
    + intros u. rewrite lookup_insert_eq. by intros [= <-].
    + rewrite lookup_insert_eq, set_is_active_idem.
      by rewrite insert_insert_eq.
  - split; [split; [discriminate | intros [? ?]; congruence]|].
    split; [done|]. split; [done|].
    split; [|split; [done|]; split; [congruence | by rewrite Hk0]].
    intros k u Hk. destruct (decide (JStr k0 = JStr k)) as [[= Heq] | Hne];
      [subst; congruence | done].
Qed.

(** X2. [update_user_password] answers [True] exactly when the id is a key
    of [users_db]; otherwise the store is unchanged.  When it answers
    [True] the record under the id has the new [hashed_password] and its
    other six fields as before; every other record, the key set and the
    email index stay as they were.  After the call the user under that id
    has the hash given, and of two updates of the same id the last one
    wins. *)
Theorem update_user_password_effect :
  forall (user_id : jval) (h : string) (st : Store),
    let r := fst (update_user_password user_id h st) in
    let st' := snd (update_user_password user_id h st) in
    (r = true <-> is_Some (get_user_by_id user_id st)) /\
    (r = false -> st' = st) /\
    user_email_index st' = user_email_index st /\
    (forall k u,
        users_db st !! k = Some u ->
        users_db st' !! k
        = Some (if decide (user_id = JStr k)
                then mkUser (id u) (email u) (username u) h
                       (full_name u) (created_at u) (is_active u)
                else u)) /\
    (forall k, users_db st !! k = None -> users_db st' !! k = None) /\
    (forall u, r = true -> get_user_by_id user_id st' = Some u ->
               hashed_password u = h) /\
    (forall h0,
        snd (update_user_password user_id h
               (snd (update_user_password user_id h0 st)))
        = st').
Proof.
  intros user_id h st r st'. subst r st'. unfold update_user_password.
  destruct user_id as [| | |k0]; cbn [fst snd users_db user_email_index];
    try (split; [split; [discriminate | by intros [? ?]]|];
         split; [done|]; split; [done|];
         split; [intros k u Hk; by rewrite decide_False by discriminate|];
         split; [done|]; split; [discriminate | done]).
  destruct (users_db st !! k0) as [u0|] eqn:Hk0;
    cbn [fst snd users_db user_email_index get_user_by_id].
  - split; [by split; eauto|]. split; [discriminate|]. split; [done|].
    split; [|split; [|split]].
    + intros k u Hk. destruct (decide (k0 = k)) as [<- | Hne].
      * rewrite lookup_insert_eq, decide_True by done.
        assert (u0 = u) as <- by congruence. done.
      * rewrite lookup_insert_ne by done.
        by rewrite decide_False by congruence.
    + intros k Hk. rewrite lookup_insert_ne; [done | congruence].
    + intros u _. rewrite lookup_insert_eq. by intros [= <-].
    + intros h0. by rewrite lookup_insert_eq, insert_insert_eq.
  - split; [split; [discriminate | intros [? ?]; congruence]|].
    split; [done|]. split; [done|].
    split; [|split; [done|]; split; [discriminate | by intros; rewrite Hk0]].
    intros k u Hk. destruct (decide (JStr k0 = JStr k)) as [[= Heq] | Hne];
      [subst; congruence | done].
Qed.

(** ** Invariants of the store along the operations of the service *)

Lemma store_wf_empty : store_wf empty_store.
Proof.
  split; simpl.
  - intros k u. by rewrite lookup_empty.
  - intros e k. by rewrite lookup_empty.
Qed.

Lemma store_wf_update st k u0 u1 :
  users_db st !! k = Some u0 ->
  id u1 = id u0 -> email u1 = email u0 ->
  store_wf st ->
  store_wf (mkStore (<[k := u1]> (users_db st)) (user_email_index st)).
Proof.
  intros Hk Hid He [Hrec Hidx]. split; simpl.
  - intros k' u'. destruct (decide (k = k')) as [<- | Hne].
    + rewrite lookup_insert_eq. intros [= <-]. rewrite Hid, He. by apply Hrec.
    + rewrite lookup_insert_ne by done. apply Hrec.
  - intros e k' He'. destruct (Hidx e k' He') as (u & Hu & Hue).
    destruct (decide (k = k')) as [<- | Hne].
    + exists u1. rewrite lookup_insert_eq. split; [done|]. congruence.
    + exists u. by rewrite lookup_insert_ne.
Qed.

Lemma store_wf_lookup st e u :
  store_wf st ->
  get_user_by_email e st = Some u <->
  exists k, users_db st !! k = Some u /\ email u = e.
Proof.
  intros [Hrec Hidx]. unfold get_user_by_email. split.
  - destruct (user_email_index st !! e) as [k|] eqn:He; [|discriminate].
    destruct (str_truthy k); [|discriminate]. intros Hk.
    destruct (Hidx e k He) as (u' & Hu' & Hue). exists k. split; congruence.
  - intros (k & Hk & <-). destruct (Hrec k u Hk) as (_ & Ht & Hi).
    by rewrite Hi, Ht.
Qed.

Lemma register_store_wf user_data salt uuid4 utcnow st :
  str_truthy uuid4 = true -> users_db st !! uuid4 = None ->
  store_wf st ->
  store_wf (snd (register user_data salt uuid4 utcnow st)).
Proof.
  intros Ht Hfresh Hwf. unfold register.
  destruct (get_user_by_email (uc_email user_data) st) as [u0|] eqn:Hg;
    [done|].
  destruct Hwf as [Hrec Hidx]. split; simpl.
  - intros k u. destruct (decide (uuid4 = k)) as [<- | Hne].
    + rewrite lookup_insert_eq. intros [= <-]; simpl.
      by rewrite lookup_insert_eq.
    + rewrite lookup_insert_ne by done. intros Hk.
      destruct (Hrec k u Hk) as (Hid & Htk & Hi).
      split; [done|]. split; [done|].
      rewrite lookup_insert_ne; [done|]. intros He.
      assert (get_user_by_email (uc_email user_data) st = Some u) as Hg'.
      { apply (store_wf_lookup st); [by split | by exists k]. }
      congruence.
  - intros e k. destruct (decide (uc_email user_data = e)) as [<- | Hne].
    + rewrite lookup_insert_eq. intros [= <-]. eexists.
      by rewrite lookup_insert_eq.
    + rewrite lookup_insert_ne by done. intros He.
      destruct (Hidx e k He) as (u & Hu & Hue). exists u.
      rewrite lookup_insert_ne; [done | congruence].
Qed.

Lemma update_user_password_store_wf user_id h st :
  store_wf st -> store_wf (snd (update_user_password user_id h st)).
Proof.
  intros Hwf. unfold update_user_password.
  destruct user_id as [| | |k]; try done.
  destruct (users_db st !! k) as [u|] eqn:Hk; [|done].
  simpl. by eapply store_wf_update.
Qed.

Lemma change_password_store_wf password_data credentials salt utcnow st :
  store_wf st ->
  store_wf (snd (change_password password_data credentials salt utcnow st)).
Proof.
  intros Hwf. unfold change_password.
  destruct (get_current_user credentials utcnow) as [cu|e]; [|done].
  destruct (get_user_by_id (cu_user_id cu) st) as [u|]; [|done].
  destruct (negb _); [done|].
  pose proof (update_user_password_store_wf (cu_user_id cu)
    (get_password_hash (new_password password_data) salt) st Hwf) as Hu.
  by destruct (update_user_password _ _ st).
Qed.

Lemma deactivate_user_store_wf user_id st :
  store_wf st -> store_wf (snd (deactivate_user user_id st)).
Proof.
  intros Hwf. unfold deactivate_user.
  destruct user_id as [| | |k]; try done.
  destruct (users_db st !! k) as [u|] eqn:Hk; [|done].
  simpl. by eapply store_wf_update.
Qed.

Lemma service_step_store_wf st st' :
  service_step st st' -> store_wf st -> store_wf st'.
Proof.
  destruct 1 as [ud salt uuid4 utcnow st Ht Hfresh
                | pd cred salt utcnow st | uid st]; intros Hwf.
  - by apply register_store_wf.
  - by apply change_password_store_wf.
  - by apply deactivate_user_store_wf.
Qed.

(** X3. Started on a store in which the two dictionaries describe the same
    users, any sequence of [register] (with a non-empty id not in use),
    [change_password] and [deactivate_user] ends in such a store: every
    record sits under its own id with its email indexed to it, and every
    indexed email leads to a record carrying it. *)
Theorem service_steps_keep_store_wf :
  forall st st' : Store,
    store_wf st -> rtc service_step st st' -> store_wf st'.
Proof.
  intros st st' Hwf Hsteps. induction Hsteps as [st | st st1 st2 Hs _ IH].
  - done.
  - apply IH. by eapply service_step_store_wf.
Qed.

(** X4. On such a store the lookup by email finds a user exactly when some
    record carries the email; the user found carries the email asked for,
    is the one the lookup by its own id finds, and no other record has the
    same email. *)
Theorem store_wf_lookup_by_email :
  forall (st : Store) (e : string),
    store_wf st ->
    (forall u,
        get_user_by_email e st = Some u <->
        exists k, users_db st !! k = Some u /\ email u = e) /\
    (forall u,
        get_user_by_email e st = Some u ->
        email u = e /\
        get_user_by_id (JStr (id u)) st = Some u /\
        forall k' u',
          users_db st !! k' = Some u' -> email u' = e -> u' = u).
Proof.
  intros st e Hwf. split.
  - intros u. by apply store_wf_lookup.
  - intros u Hg. pose proof Hg as Hg'.
    apply (store_wf_lookup st e u Hwf) in Hg' as (k & Hk & He).
    destruct Hwf as [Hrec Hidx].
    destruct (Hrec k u Hk) as (Hid & _ & Hi).
    split; [done|]. split; [simpl; by rewrite Hid|].
    intros k' u' Hk' He'.
    destruct (Hrec k' u' Hk') as (_ & _ & Hi'). congruence.
Qed.

(** X5. On every store reached from the empty one by [register],
    [change_password] and [deactivate_user], no two records carry the same
    email, even if [uuid4] repeats an id. *)
Theorem reachable_emails_unique :
  forall st : Store, reachable st -> emails_unique st.
Proof.
  intros st Hr. apply consistent_emails_unique.
  by apply reachable_consistent.
Qed.


Lemma same_identity_refl u : same_identity u u.
Proof. by repeat split. Qed.

Lemma same_identity_trans u1 u2 u3 :
  same_identity u1 u2 -> same_identity u2 u3 -> same_identity u1 u3.
Proof.
  intros (? & ? & ? & ? & ?) (? & ? & ? & ? & ?).
  repeat split; congruence.
Qed.

Lemma update_keeps_record (db : gmap string User) k0 u0 u1 k u :
  db !! k0 = Some u0 ->
  same_identity u0 u1 ->
  (is_active u0 = false -> is_active u1 = false) ->
  db !! k = Some u ->
  exists u', <[k0 := u1]> db !! k = Some u' /\ same_identity u u' /\
             (is_active u = false -> is_active u' = false).
Proof.
  intros Hk0 Hid Hact Hk. destruct (decide (k0 = k)) as [<- | Hne].
  - exists u1. rewrite lookup_insert_eq. split; [done|].
    assert (u0 = u) as <- by congruence. done.
  - exists u. rewrite lookup_insert_ne by done.
    split; [done|]. split; [apply same_identity_refl | done].
Qed.

Lemma service_step_keeps_record st st' k u :
  service_step st st' -> users_db st !! k = Some u ->
  exists u', users_db st' !! k = Some u' /\ same_identity u u' /\
             (is_active u = false -> is_active u' = false).
Proof.
  destruct 1 as [ud salt uuid4 utcnow st Ht Hfresh
                | pd cred salt utcnow st | uid st]; intros Hk.
  - unfold register.
    destruct (get_user_by_email (uc_email ud) st);
      simpl; exists u; (split; [|split; [apply same_identity_refl | done]]);
      [done|].
    rewrite lookup_insert_ne; [done | congruence].
  - unfold change_password.
    destruct (get_current_user cred utcnow) as [cu|e];
      [|exists u; split; [done|]; split; [apply same_identity_refl | done]].
    destruct (get_user_by_id (cu_user_id cu) st) as [u0|];
      [|exists u; split; [done|]; split; [apply same_identity_refl | done]].
    destruct (negb _);
      [exists u; split; [done|]; split; [apply same_identity_refl | done]|].
    unfold update_user_password.
    destruct (cu_user_id cu) as [| | |k0]; simpl;
      try (exists u; split; [done|]; split; [apply same_identity_refl | done]).
    destruct (users_db st !! k0) as [u1|] eqn:Hk0; simpl;
      [|exists u; split; [done|]; split; [apply same_identity_refl | done]].
    eapply update_keeps_record; eauto. by repeat split.
  - unfold deactivate_user.
    destruct uid as [| | |k0]; simpl;
      try (exists u; split; [done|]; split; [apply same_identity_refl | done]).
    destruct (users_db st !! k0) as [u1|] eqn:Hk0; simpl;
      [|exists u; split; [done|]; split; [apply same_identity_refl | done]].
    eapply update_keeps_record; eauto. by repeat split.
Qed.

(** X6. No operation of the service deletes a record, rewrites its [id],
    [email], [username], [full_name] or [created_at], or sets [is_active]
    back to true: a record present before a sequence of operations is
    present under the same id after it, with the same identity, and if it
    was inactive it still is. *)
Theorem service_steps_keep_records :
  forall (st st' : Store) (k : string) (u : User),
    rtc service_step st st' ->
    users_db st !! k = Some u ->
    exists u', users_db st' !! k = Some u' /\ same_identity u u' /\
               (is_active u = false -> is_active u' = false).
Proof.
  intros st st' k u Hsteps. revert u.
  induction Hsteps as [st | st st1 st2 Hs _ IH]; intros u Hk.
  - exists u. split; [done|]. split; [apply same_identity_refl | done].
  - destruct (service_step_keeps_record st st1 k u Hs Hk)
      as (u1 & Hk1 & Hid1 & Hact1).
    destruct (IH u1 Hk1) as (u2 & Hk2 & Hid2 & Hact2).
    exists u2. split; [done|].
    split; [by eapply same_identity_trans | auto].
Qed.

Lemma service_step_email_registered st st' e :
  service_step st st' -> email_registered st e -> email_registered st' e.
Proof.
  intros Hs [u Hg]. pose proof Hg as Hg'. unfold get_user_by_email in Hg.
  destruct (user_email_index st !! e) as [k|] eqn:He; [|discriminate].
  destruct (str_truthy k) eqn:Ht; [|discriminate].
  destruct (service_step_keeps_record st st' k u Hs Hg) as (u' & Hk' & _).
  assert (user_email_index st' !! e = Some k) as He'.
  { destruct Hs as [ud salt uuid4 utcnow st Htu Hfresh
                   | pd cred salt utcnow st | uid st].
    - unfold register.
      destruct (get_user_by_email (uc_email ud) st) eqn:Hud; [done|].
      simpl. rewrite lookup_insert_ne; [done | congruence].
    - unfold change_password.
      destruct (get_current_user cred utcnow) as [cu|?]; [|done].
      destruct (get_user_by_id (cu_user_id cu) st); [|done].
      destruct (negb _); [done|].
      unfold update_user_password.
      destruct (cu_user_id cu) as [| | |k0]; try done.
      by destruct (users_db st !! k0).
    - unfold deactivate_user. destruct uid as [| | |k0]; try done.
      by destruct (users_db st !! k0). }
  exists u'. unfold get_user_by_email. by rewrite He', Ht.
Qed.

(** X7. An email the lookup finds stays taken: after any sequence of
    operations [register] with that email still raises 400
    "Email already registered" and leaves the store as it is. *)
Theorem registered_email_stays_registered :
  forall (st st' : Store) (e : string),
    email_registered st e ->
    rtc service_step st st' ->
    email_registered st' e /\
    forall (uname password : string) (fname : option string)
           (salt : list Byte.byte) (uuid4 : string) (utcnow : Z),
      register (mkUserCreate e uname password fname) salt uuid4 utcnow st'
      = (Raise (mkHTTPException HTTP_400_BAD_REQUEST
                  "Email already registered" None), st').
Proof.
  intros st st' e Hreg Hsteps.
  assert (email_registered st' e) as Hreg'.
  { induction Hsteps as [st | st st1 st2 Hs _ IH]; [done|].
    apply IH. by eapply service_step_email_registered. }
  split; [done|]. intros. destruct Hreg' as [u Hu].
  unfold register; simpl. by rewrite Hu.
Qed.

(** ** Registration and login *)

Lemma verify_password_get_password_hash password salt :
  bcrypt_gensalt salt ->
  verify_password password (get_password_hash password salt) = true.
Proof.
  intros Hs. unfold verify_password, get_password_hash.
  rewrite list_byte_of_string_of_list_byte. by apply bcrypt_checkpw_hashpw.
Qed.


(** X9. Before an email is registered a login with it is refused with 401.
    Once [register] has accepted it, with a salt of [gensalt] and a
    non-empty id, a login with the same email and password returns the
    token pair issued to the new id, and a second [register] with the email
    is refused with 400, whatever the other fields are. *)
Theorem register_then_login :
  forall (st : Store) (e uname password : string) (fname : option string)
         (salt : list Byte.byte) (uuid4 : string) (utcnow ta tr : Z),
    get_user_by_email e st = None ->
    str_truthy uuid4 = true ->
    bcrypt_gensalt salt ->
    let st' :=
      snd (register (mkUserCreate e uname password fname) salt uuid4 utcnow
             st) in
    login (mkUserLogin e password) ta tr st
    = Raise (mkHTTPException HTTP_401_UNAUTHORIZED
               "Incorrect email or password" None) /\
    login (mkUserLogin e password) ta tr st'
    = Ok (Token_of
            (create_access_token (token_data (JStr uuid4) (JStr e))
               (Some (timedelta_minutes ACCESS_TOKEN_EXPIRE_MINUTES)) ta)
            (create_refresh_token (token_data (JStr uuid4) (JStr e)) tr)) /\
    (forall user_data' salt' uuid4' utcnow',
        uc_email user_data' = e ->
        register user_data' salt' uuid4' utcnow' st'
        = (Raise (mkHTTPException HTTP_400_BAD_REQUEST
                    "Email already registered" None), st')).
Proof.
  intros st e uname password fname salt uuid4 utcnow ta tr Hnone Ht Hs st'.
  assert (get_user_by_email e st'
          = Some (mkUser uuid4 e uname (get_password_hash password salt)
                    fname utcnow true)) as Hg.
  { subst st'. unfold register; simpl. rewrite Hnone; simpl.
    unfold get_user_by_email; simpl.
    by rewrite lookup_insert_eq, Ht, lookup_insert_eq. }
  split; [|split].
  - unfold login; simpl. by rewrite Hnone.
  - unfold login; simpl. rewrite Hg; simpl.
    by rewrite verify_password_get_password_hash.
  - intros ud' salt' uuid4' utcnow' He. unfold register.
    by rewrite He, Hg.
Qed.


Lemma login_access_expire t :
  access_token_expire (Some (timedelta_minutes ACCESS_TOKEN_EXPIRE_MINUTES)) t
  = t + timedelta_minutes ACCESS_TOKEN_EXPIRE_MINUTES.
Proof.
  unfold access_token_expire, timedelta_truthy.
  destruct (timedelta_minutes ACCESS_TOKEN_EXPIRE_MINUTES =? 0)%Z; done.
Qed.

Lemma issued_refresh_token_verifies k e t0 now :
  now <= refresh_token_expire t0 ->
  verify_token (create_refresh_token (token_data (JStr k) (JStr e)) t0)
    "refresh" now
  = Ok (<["type" := JStr "refresh"]>
          (<["exp" := JInt (refresh_token_expire t0)]>
             (token_data (JStr k) (JStr e)))).
Proof.
  intros Hle. unfold verify_token, create_refresh_token.
  simpl. rewrite jwt_decode_encode by done.
  unfold dict_get. by simplify_map_eq.
Qed.

Lemma issued_refresh_token_refreshes st k e u t0 now ta tr :
  users_db st !! k = Some u -> is_active u = true ->
  str_truthy k = true -> str_truthy e = true ->
  now <= refresh_token_expire t0 ->
  refresh_token
    (mkRefreshTokenRequest
       (create_refresh_token (token_data (JStr k) (JStr e)) t0))
    now ta tr st
  = Ok (Token_of
          (create_access_token (token_data (JStr k) (JStr e))
             (Some (timedelta_minutes ACCESS_TOKEN_EXPIRE_MINUTES)) ta)
          (create_refresh_token (token_data (JStr k) (JStr e)) tr)).
Proof.
  intros Hk Hact Htk Hte Hle. unfold refresh_token; simpl.
  rewrite issued_refresh_token_verifies by done. simpl.
  unfold dict_get, token_data. simplify_map_eq. simpl.
  by rewrite Htk, Hte, Hact.
Qed.

Lemma login_success st e password user ta tr :
  get_user_by_email e st = Some user ->
  verify_password password (hashed_password user) = true ->
  is_active user = true ->
  login (mkUserLogin e password) ta tr st
  = Ok (Token_of
          (create_access_token
             (token_data (JStr (id user)) (JStr (email user)))
             (Some (timedelta_minutes ACCESS_TOKEN_EXPIRE_MINUTES)) ta)
          (create_refresh_token
             (token_data (JStr (id user)) (JStr (email user))) tr)).
Proof.
  intros Hg Hpw Hact. unfold login; simpl. by rewrite Hg, Hpw, Hact.
Qed.

(** X10. When [login] succeeds for a user whose record sits under its own
    id, the access token it returns, presented to [/me] up to
    [ACCESS_TOKEN_EXPIRE_MINUTES] after the login, identifies that user and
    [/me] returns the user's view. *)
Theorem login_then_me :
  forall (st : Store) (e password : string) (user : User) (ta tr now : Z),
    get_user_by_email e st = Some user ->
    users_db st !! id user = Some user ->
    verify_password password (hashed_password user) = true ->
    is_active user = true ->
    now <= ta + timedelta_minutes ACCESS_TOKEN_EXPIRE_MINUTES ->
    exists t,
      login (mkUserLogin e password) ta tr st = Ok t /\
      token_type t = "bearer" /\
      get_current_user (access_token t) now
      = Ok (mkCurrentUser (JStr (id user)) (JStr (email user))) /\
      get_current_user_info (access_token t) now st
      = Ok (UserResponse_of user).
Proof.
  intros st e password user ta tr now Hg Hk Hpw Hact Hle.
  eexists. split; [by apply login_success|]. simpl.
  split; [done|]. split.
  - apply issued_access_token_identifies. by rewrite login_access_expire.
  - apply issued_access_token_me; [done|]. by rewrite login_access_expire.
Qed.

(** X11. When [login] succeeds for a user whose record sits under its own
    id, and neither the id nor the email is empty, the refresh token it
    returns, presented to [refresh_token] up to
    [REFRESH_TOKEN_EXPIRE_DAYS] after the login, is exchanged for a new
    pair issued to the same id and email. *)
Theorem login_then_refresh :
  forall (st : Store) (e password : string) (user : User)
         (ta tr now ta' tr' : Z),
    get_user_by_email e st = Some user ->
    users_db st !! id user = Some user ->
    verify_password password (hashed_password user) = true ->
    is_active user = true ->
    str_truthy (id user) = true ->
    str_truthy (email user) = true ->
    now <= tr + timedelta_days REFRESH_TOKEN_EXPIRE_DAYS ->
    exists t,
      login (mkUserLogin e password) ta tr st = Ok t /\
      refresh_token (mkRefreshTokenRequest (refresh_token_ t)) now ta' tr' st
      = Ok (Token_of
              (create_access_token
                 (token_data (JStr (id user)) (JStr (email user)))
                 (Some (timedelta_minutes ACCESS_TOKEN_EXPIRE_MINUTES)) ta')
              (create_refresh_token
                 (token_data (JStr (id user)) (JStr (email user))) tr')).
Proof.
  intros st e password user ta tr now ta' tr' Hg Hk Hpw Hact Hti Hte Hle.
  eexists. split; [by apply login_success|]. simpl.
  by apply (issued_refresh_token_refreshes st (id user) (email user) user).
Qed.

(** ** Expiry *)

Lemma verify_token_unexpired token kind now p e :
  verify_token token kind now = Ok p ->
  p !! "exp" = Some (JInt e) -> now <= e.
Proof.
  unfold verify_token.
  destruct (jwt_decode _ _ _ _) as [err | q] eqn:Hd; [discriminate|].
  case_bool_decide; [discriminate|]. intros [= <-].
  by eapply jwt_decode_unexpired.
Qed.

Lemma issued_access_token_expired data expires_delta t0 kind now :
  access_token_expire expires_delta t0 < now ->
  exists err,
    verify_token (create_access_token data expires_delta t0) kind now
    = Raise err /\ status_code err = 401.
Proof.
  intros Hlt.
  destruct (verify_token _ kind now) as [p | err] eqn:Hv.
  - exfalso. pose proof (verify_issued_access _ _ _ _ _ _ Hv) as ->.
    apply (verify_token_unexpired _ _ _ _
             (access_token_expire expires_delta t0)) in Hv; [lia|].
    rewrite lookup_insert_ne by done. apply lookup_insert_eq.
  - exists err. split; [done|]. by eapply verify_token_status.
Qed.

Lemma issued_refresh_token_expired data t0 kind now :
  refresh_token_expire t0 < now ->
  exists err,
    verify_token (create_refresh_token data t0) kind now
    = Raise err /\ status_code err = 401.
Proof.
  intros Hlt.
  destruct (verify_token _ kind now) as [p | err] eqn:Hv.
  - exfalso. pose proof (verify_issued_refresh _ _ _ _ _ Hv) as ->.
    apply (verify_token_unexpired _ _ _ _ (refresh_token_expire t0)) in Hv;
      [lia|].
    rewrite lookup_insert_ne by done. apply lookup_insert_eq.
  - exists err. split; [done|]. by eapply verify_token_status.
Qed.

(** X12. A token of the service verifies as its own kind exactly up to its
    expiry: an access token issued at [t0] verifies at [now] if and only if
    [now <= t0 + lifetime], and likewise a refresh token; past the expiry
    [verify_token] raises 401, and so does [/me]. *)
Theorem token_expiry_boundary :
  forall (k e : string) (expires_delta : option Z) (t0 now : Z),
    let data := token_data (JStr k) (JStr e) in
    let access := create_access_token data expires_delta t0 in
    let refresh := create_refresh_token data t0 in
    ((exists p, verify_token access "access" now = Ok p) <->
     now <= access_token_expire expires_delta t0) /\
    ((exists p, verify_token refresh "refresh" now = Ok p) <->
     now <= refresh_token_expire t0) /\
    (access_token_expire expires_delta t0 < now ->
     (exists err, verify_token access "access" now = Raise err /\
                  status_code err = HTTP_401_UNAUTHORIZED) /\
     forall st,
       response_status 200 (get_current_user_info access now st)
       = HTTP_401_UNAUTHORIZED) /\
    (refresh_token_expire t0 < now ->
     forall ta tr st,
       response_status 200
         (refresh_token (mkRefreshTokenRequest refresh) now ta tr st)
       = HTTP_401_UNAUTHORIZED).
Proof.
  intros k e delta t0 now data access refresh. subst data access refresh.
  split; [|split; [|split]].
  - split.
    + intros [p Hv].
      destruct (Z_le_gt_dec now (access_token_expire delta t0)); [done|].
      destruct (issued_access_token_expired
                  (token_data (JStr k) (JStr e)) delta t0 "access" now)
        as (err & Herr & _); [lia | congruence].
    + intros Hle. eexists. by apply issued_access_token_verifies.
  - split.
    + intros [p Hv].
      destruct (Z_le_gt_dec now (refresh_token_expire t0)); [done|].
      destruct (issued_refresh_token_expired
                  (token_data (JStr k) (JStr e)) t0 "refresh" now)
        as (err & Herr & _); [lia | congruence].
    + intros Hle. eexists. by apply issued_refresh_token_verifies.
  - intros Hlt.
    destruct (issued_access_token_expired
                (token_data (JStr k) (JStr e)) delta t0 "access" now Hlt)
      as (err & Herr & Hst).
    split; [by exists err|]. intros st.
    unfold get_current_user_info, get_current_user. by rewrite Herr.
  - intros Hlt ta tr st.
    destruct (issued_refresh_token_expired
                (token_data (JStr k) (JStr e)) t0 "refresh" now Hlt)
      as (err & Herr & Hst).
    unfold refresh_token. simpl. by rewrite Herr.
Qed.

Lemma timegm_add_seconds u x :
  timegm (u + x * MICROSECONDS) = timegm u + x.
Proof. unfold timegm. by rewrite Z.div_add. Qed.

Lemma access_token_of_exp data E :
  jwt_encode (<["type" := JStr "access"]> (<["exp" := JInt E]> data))
    SECRET_KEY ALGORITHM
  = create_access_token data (Some 1) (E - 1).
Proof.
  unfold create_access_token, access_token_expire. simpl.
  by replace (E - 1 + 1) with E by lia.
Qed.

Lemma create_access_token_exn_returns data delta u tok :
  delta <> 0 ->
  create_access_token_exn data (Some delta) u = Returns tok ->
  tok = create_access_token data (Some 1) (timegm (u + delta) - 1).
Proof.
  intros Hd. unfold create_access_token_exn, timedelta_truthy, datetime_add.
  rewrite (proj2 (Z.eqb_neq delta 0)) by done. simpl.
  destruct (_ && _); simpl; [|discriminate].
  intros [= <-]. apply access_token_of_exp.
Qed.

Lemma create_access_token_exn_whole_seconds data d u tok :
  create_access_token_exn data (option_map (fun x => x * MICROSECONDS) d) u
  = Returns tok ->
  tok = create_access_token data d (timegm u).
Proof.
  unfold create_access_token_exn, create_access_token, access_token_expire.
  assert (timedelta_truthy (option_map (fun x => x * MICROSECONDS) d)
          = timedelta_truthy d) as ->.
  { destruct d as [x|]; simpl; [|done].
    destruct (Z.eqb_spec x 0) as [-> | Hx]; [done|].
    apply negb_true_iff, Z.eqb_neq. unfold MICROSECONDS. lia. }
  destruct (timedelta_truthy d) eqn:Ht.
  - destruct d as [x|]; [|done]. simpl. unfold datetime_add.
    destruct (_ && _); simpl; [|discriminate].
    intros [= <-]. by rewrite timegm_add_seconds.
  - unfold timedelta_of_minutes, datetime_add.
    destruct (_ && _); simpl; [|discriminate].
    destruct (_ && _); simpl; [|discriminate].
    intros [= <-]. unfold timedelta_minutes.
    replace (ACCESS_TOKEN_EXPIRE_MINUTES * 60 * MICROSECONDS)
      with (60 * ACCESS_TOKEN_EXPIRE_MINUTES * MICROSECONDS) by lia.
    by rewrite timegm_add_seconds.
Qed.

(** X13. [create_access_token] at the resolution of the clock, with the
    [OverflowError] of [datetime].
    - A zero [expires_delta] is treated like a missing one.
    - Whenever the call returns for a delta of whole seconds, the token is
      the one the whole-second model gives at the second of the clock
      reading.
    - [jwt.encode] writes the whole second of [utcnow + expires_delta]: the
      token is accepted at a clock reading whose second is not later, and
      refused with 401 at a later one.  So a token issued with a delta of
      minus one second or less is refused from the moment it is issued,
      while one issued with a negative delta that stays within the issuing
      second is accepted at that moment.
    - When [utcnow + expires_delta] leaves the range of [datetime] the call
      raises [OverflowError]. *)
Theorem expires_delta_edges :
  forall (k e : string) (u : Z),
    let data := token_data (JStr k) (JStr e) in
    create_access_token_exn data (Some 0) u
    = create_access_token_exn data None u /\
    (forall d tok,
        create_access_token_exn data
          (option_map (fun x => x * MICROSECONDS) d) u = Returns tok ->
        tok = create_access_token data d (timegm u)) /\
    (forall delta tok now,
        delta <> 0 ->
        create_access_token_exn data (Some delta) u = Returns tok ->
        (timegm now <= timegm (u + delta) ->
         get_current_user tok (timegm now)
         = Ok (mkCurrentUser (JStr k) (JStr e))) /\
        (timegm (u + delta) < timegm now ->
         exists err,
           get_current_user tok (timegm now) = Raise err /\
           status_code err = HTTP_401_UNAUTHORIZED)) /\
    (forall delta tok,
        delta <= - MICROSECONDS ->
        create_access_token_exn data (Some delta) u = Returns tok ->
        exists err,
          get_current_user tok (timegm u) = Raise err /\
          status_code err = HTTP_401_UNAUTHORIZED) /\
    (forall delta tok,
        delta < 0 ->
        timegm (u + delta) = timegm u ->
        create_access_token_exn data (Some delta) u = Returns tok ->
        get_current_user tok (timegm u)
        = Ok (mkCurrentUser (JStr k) (JStr e))) /\
    (forall delta,
        delta <> 0 ->
        u + delta < datetime_min \/ datetime_max < u + delta ->
        create_access_token_exn data (Some delta) u = Throws OverflowError).
Proof.
  intros k e u data. subst data.
  assert (forall delta tok now,
            delta <> 0 ->
            create_access_token_exn (token_data (JStr k) (JStr e))
              (Some delta) u = Returns tok ->
            (timegm now <= timegm (u + delta) ->
             get_current_user tok (timegm now)
             = Ok (mkCurrentUser (JStr k) (JStr e))) /\
            (timegm (u + delta) < timegm now ->
             exists err,
               get_current_user tok (timegm now) = Raise err /\
               status_code err = HTTP_401_UNAUTHORIZED)) as Hedge.
  { intros delta tok now Hd Htok.
    apply create_access_token_exn_returns in Htok; [|done]. subst tok.
    assert (access_token_expire (Some 1) (timegm (u + delta) - 1)
            = timegm (u + delta)) as Hexp.
    { unfold access_token_expire. simpl. lia. }
    split.
    - intros Hle. apply issued_access_token_identifies. by rewrite Hexp.
    - intros Hlt.
      destruct (issued_access_token_expired
                  (token_data (JStr k) (JStr e)) (Some 1)
                  (timegm (u + delta) - 1) "access" (timegm now))
        as (err & Herr & Hst); [by rewrite Hexp|].
      exists err. unfold get_current_user. by rewrite Herr. }
  split; [done|]. split; [|split; [done|]; split; [|split]].
  - intros d tok. apply create_access_token_exn_whole_seconds.
  - intros delta tok Hd Htok.
    apply (Hedge delta tok u); [unfold MICROSECONDS in Hd; lia | done |].
    assert (timegm (u + delta) <= timegm (u + (-1) * MICROSECONDS)) as Hle.
    { unfold timegm. apply Z.div_le_mono; unfold MICROSECONDS in *; lia. }
    rewrite timegm_add_seconds in Hle. lia.
  - intros delta tok Hd Hsame Htok.
    apply (Hedge delta tok u); [lia | done | lia].
  - intros delta Hd Hout.
    unfold create_access_token_exn, timedelta_truthy, datetime_add.
    rewrite (proj2 (Z.eqb_neq delta 0)) by done. simpl.
    destruct (datetime_min <=? u + delta)%Z eqn:H1;
      destruct (u + delta <=? datetime_max)%Z eqn:H2; simpl; try done.
    apply Z.leb_le in H1, H2. lia.
Qed.

(** ** Status codes *)

Lemma get_current_user_status credentials now e :
  get_current_user credentials now = Raise e -> status_code e = 401.
Proof.
  unfold get_current_user.
  destruct (verify_token credentials "access" now) as [p|e'] eqn:Hv; simpl.
  - destruct (_ || _); [by intros [= <-] | discriminate].
  - intros [= <-]. by eapply verify_token_status.
Qed.

(** ** Operations followed by a login *)



(** ** Edge cases of the token handlers *)

(** X17. [refresh_token] refuses a refresh token whose [sub] or [email] is
    the empty string with 401 "Invalid refresh token", before it looks at
    the store, whereas [get_current_user] only tests for [None] and
    accepts an access token whose [sub] is the empty string. *)
Theorem refresh_rejects_empty_claims :
  forall (k e : string) (expires_delta : option Z) (t0 now : Z),
    (k = "" \/ e = "" ->
     now <= refresh_token_expire t0 ->
     forall ta tr st,
       refresh_token
         (mkRefreshTokenRequest
            (create_refresh_token (token_data (JStr k) (JStr e)) t0))
         now ta tr st
       = Raise (mkHTTPException HTTP_401_UNAUTHORIZED
                  "Invalid refresh token" None)) /\
    (now <= access_token_expire expires_delta t0 ->
     get_current_user
       (create_access_token (token_data (JStr "") (JStr e)) expires_delta t0)
       now
     = Ok (mkCurrentUser (JStr "") (JStr e))).
Proof.
  intros k e delta t0 now. split.
  - intros Hempty Hle ta tr st. unfold refresh_token; simpl.
    rewrite issued_refresh_token_verifies by done. simpl.
    unfold dict_get, token_data. simplify_map_eq. simpl.
    by destruct Hempty as [-> | ->]; simpl; rewrite ?orb_true_r.
  - intros Hle. by apply issued_access_token_identifies.
Qed.

(** X18. [logout] does not look at the store: an unexpired access token of
    the service is accepted even when no record sits under its [sub], a
    case in which [/me] answers 404; past the expiry [logout] answers
    401. *)
Theorem logout_ignores_store :
  forall (k e : string) (expires_delta : option Z) (t0 now : Z),
    let token :=
      create_access_token (token_data (JStr k) (JStr e)) expires_delta t0 in
    (now <= access_token_expire expires_delta t0 ->
     logout token now = Ok "Logged out successfully" /\
     forall st,
       users_db st !! k = None ->
       get_current_user_info token now st
       = Raise (mkHTTPException HTTP_404_NOT_FOUND "User not found" None)) /\
    (access_token_expire expires_delta t0 < now ->
     response_status 200 (logout token now) = HTTP_401_UNAUTHORIZED).
Proof.
  intros k e delta t0 now token. subst token. split.
  - intros Hle. split.
    + unfold logout. by rewrite issued_access_token_identifies.
    + intros st Hk. unfold get_current_user_info.
      rewrite issued_access_token_identifies by done. simpl. by rewrite Hk.
  - intros Hlt.
    destruct (issued_access_token_expired
                (token_data (JStr k) (JStr e)) delta t0 "access" now Hlt)
      as (err & Herr & Hst).
    unfold logout, get_current_user. by rewrite Herr.
Qed.

(** X19. A refresh token is no bearer token: presented to [/me],
    [change_password] or [logout] it is refused with 401 and the store is
    left unchanged; and an access token presented to [refresh_token] is
    refused with 401.  This holds at every clock reading and for every
    claim set the token was issued with. *)
Theorem handlers_reject_wrong_kind :
  forall (data : claims) (expires_delta : option Z) (t0 now : Z) (st : Store),
    let refresh := create_refresh_token data t0 in
    let access := create_access_token data expires_delta t0 in
    response_status 200 (get_current_user_info refresh now st)
    = HTTP_401_UNAUTHORIZED /\
    response_status 200 (logout refresh now) = HTTP_401_UNAUTHORIZED /\
    (forall password_data salt,
        response_status 200
          (fst (change_password password_data refresh salt now st))
        = HTTP_401_UNAUTHORIZED /\
        snd (change_password password_data refresh salt now st) = st) /\
    (forall ta tr,
        response_status 200
          (refresh_token (mkRefreshTokenRequest access) now ta tr st)
        = HTTP_401_UNAUTHORIZED).
Proof.
  intros data delta t0 now st refresh access. subst refresh access.
  destruct (refresh_token_wrong_kind data t0 "access" now)
    as (err & Herr & Hst); [done|].
  destruct (access_token_wrong_kind data delta t0 "refresh" now)
    as (err' & Herr' & Hst'); [done|].
  split; [|split; [|split]].
  - unfold get_current_user_info, get_current_user. by rewrite Herr.
  - unfold logout, get_current_user. by rewrite Herr.
  - intros pd salt. unfold change_password, get_current_user.
    by rewrite Herr.
  - intros ta tr. unfold refresh_token. simpl. by rewrite Herr'.
Qed.


(** X20. [get_current_user] returns only for a token that carries both a
    [sub] and an [email] other than [None], and returns exactly these two
    claims; an access token issued from data in which one of them is
    missing or [None] is refused with 401 at every clock reading. *)
Theorem get_current_user_requires_sub_and_email :
  forall (data : claims) (expires_delta : option Z) (t0 now : Z),
    let token := create_access_token data expires_delta t0 in
    (forall cu,
        get_current_user token now = Ok cu ->
        cu = mkCurrentUser (dict_get data "sub") (dict_get data "email") /\
        is_none (dict_get data "sub") = false /\
        is_none (dict_get data "email") = false) /\
    (is_none (dict_get data "sub") || is_none (dict_get data "email") = true ->
     exists e, get_current_user token now = Raise e /\
               status_code e = HTTP_401_UNAUTHORIZED).
Proof.
  intros data delta t0 now token. subst token.
  assert (forall cu,
            get_current_user (create_access_token data delta t0) now = Ok cu ->
            cu = mkCurrentUser (dict_get data "sub") (dict_get data "email") /\
            is_none (dict_get data "sub") = false /\
            is_none (dict_get data "email") = false) as Hok.
  { intros cu. unfold get_current_user.
    destruct (verify_token _ "access" now) as [p|e] eqn:Hv; simpl;
      [|discriminate].
    apply verify_issued_access in Hv. subst p.
    assert (forall key, key <> "type" -> key <> "exp" ->
              dict_get (<["type" := JStr "access"]>
                          (<["exp" := JInt (access_token_expire delta t0)]>
                             data)) key
              = dict_get data key) as Hget.
    { intros key H1 H2. unfold dict_get.
      by rewrite !lookup_insert_ne by done. }
    rewrite !Hget by done.
    destruct (is_none (dict_get data "sub")) eqn:Hs; simpl; [discriminate|].
    destruct (is_none (dict_get data "email")) eqn:He; simpl;
      [discriminate|].
    by intros [= <-]. }
  split; [done|]. intros Hnone.
  destruct (get_current_user (create_access_token data delta t0) now)
    as [cu|e] eqn:Hcu.
  - destruct (Hok cu eq_refl) as (_ & Hs & He).
    rewrite Hs, He in Hnone. discriminate.
  - exists e. split; [done|]. by eapply get_current_user_status.
Qed.

(** X21. Refresh tokens chain and are not revoked: while the user stays
    active, the refresh token of the pair [refresh_token] returns can be
    exchanged again, and the token presented first is still accepted after
    it has been used, up to its own expiry. *)
Theorem refresh_chain :
  forall (st : Store) (k e : string) (u : User)
         (t0 now1 ta1 tr1 now2 ta2 tr2 : Z),
    users_db st !! k = Some u ->
    is_active u = true ->
    str_truthy k = true ->
    str_truthy e = true ->
    now1 <= refresh_token_expire t0 ->
    now2 <= refresh_token_expire tr1 ->
    let first := create_refresh_token (token_data (JStr k) (JStr e)) t0 in
    let pair2 :=
      Token_of
        (create_access_token (token_data (JStr k) (JStr e))
           (Some (timedelta_minutes ACCESS_TOKEN_EXPIRE_MINUTES)) ta2)
        (create_refresh_token (token_data (JStr k) (JStr e)) tr2) in
    exists pair1,
      refresh_token (mkRefreshTokenRequest first) now1 ta1 tr1 st = Ok pair1 /\
      refresh_token (mkRefreshTokenRequest (refresh_token_ pair1))
        now2 ta2 tr2 st = Ok pair2 /\
      (now2 <= refresh_token_expire t0 ->
       refresh_token (mkRefreshTokenRequest first) now2 ta2 tr2 st = Ok pair2).
Proof.
  intros st k e u t0 now1 ta1 tr1 now2 ta2 tr2 Hk Hact Htk Hte H1 H2
    first pair2.
  subst first pair2. eexists. split; [|split].
  - by apply (issued_refresh_token_refreshes st k e u).
  - simpl. by apply (issued_refresh_token_refreshes st k e u).
  - intros H3. by apply (issued_refresh_token_refreshes st k e u).
Qed.

(** X22. A successful [register] with a fresh id touches nobody else: on a
    store in which the two dictionaries describe the same users, the
    lookup by any other email, the lookup by any other id and every login
    with another email give what they gave before. *)
Theorem register_leaves_others :
  forall (st : Store) (user_data : UserCreate) (salt : list Byte.byte)
         (uuid4 : string) (utcnow : Z),
    store_wf st ->
    get_user_by_email (uc_email user_data) st = None ->
    users_db st !! uuid4 = None ->
    let st' := snd (register user_data salt uuid4 utcnow st) in
    (forall e, e <> uc_email user_data ->
               get_user_by_email e st' = get_user_by_email e st) /\
    (forall user_id, user_id <> JStr uuid4 ->
                     get_user_by_id user_id st' = get_user_by_id user_id st) /\
    (forall user_credentials ta tr,
        ul_email user_credentials <> uc_email user_data ->
        login user_credentials ta tr st' = login user_credentials ta tr st).
Proof.
  intros st ud salt uuid4 utcnow [Hrec Hidx] Hnone Hfresh st'.
  assert (forall e, e <> uc_email ud ->
            get_user_by_email e st' = get_user_by_email e st) as Hmail.
  { intros e Hne. subst st'. unfold register. rewrite Hnone. simpl.
    unfold get_user_by_email; simpl. rewrite lookup_insert_ne by done.
    destruct (user_email_index st !! e) as [k|] eqn:He; [|done].
    destruct (str_truthy k); [|done].
    destruct (Hidx e k He) as (u & Hu & _).
    rewrite lookup_insert_ne; [done | congruence]. }
  split; [done|]. split.
  - intros user_id Hne. subst st'. unfold register. rewrite Hnone. simpl.
    destruct user_id as [| | |k]; try done. simpl.
    rewrite lookup_insert_ne; [done | congruence].
  - intros uc ta tr Hne. unfold login. by rewrite Hmail.
Qed.


(** ** The exceptions of [bcrypt] *)

Lemma bcrypt_hashpw_exn_long password salt :
  (72 < length password)%nat ->
  bcrypt_hashpw_exn password salt = Throws ValueError.
Proof.
  intros Hlen. unfold bcrypt_hashpw_exn.
  by rewrite (proj2 (Nat.ltb_lt 72 (length password))).
Qed.

Lemma bcrypt_hashpw_exn_gensalt password salt :
  (length password <= 72)%nat ->
  bcrypt_gensalt_exn salt ->
  bcrypt_hashpw_exn password salt
  = Returns (salt ++ bcrypt_digest password salt)%list.
Proof.
  intros Hlen [Hs Hv]. unfold bcrypt_hashpw_exn.
  rewrite (proj2 (Nat.ltb_ge 72 (length password))) by done.
  rewrite (take_ge salt) by (rewrite Hs; lia).
  by rewrite Hv.
Qed.

Lemma bcrypt_checkpw_exn_hashpw password salt :
  (length password <= 72)%nat ->
  bcrypt_gensalt_exn salt ->
  bcrypt_checkpw_exn password (salt ++ bcrypt_digest password salt)%list
  = Returns true.
Proof.
  intros Hlen [Hs Hv]. unfold bcrypt_checkpw_exn, bcrypt_hashpw_exn.
  rewrite (proj2 (Nat.ltb_ge 72 (length password))) by done.
  rewrite take_app_length' by done. rewrite Hv. simpl.
  by rewrite bool_decide_eq_true_2.
Qed.

Lemma login_exn_not_verified st e password user ta tr :
  get_user_by_email e st = Some user ->
  verify_password_exn password (hashed_password user) = Returns false ->
  login_exn (mkUserLogin e password) ta tr st
  = Throws (HTTPError (mkHTTPException HTTP_401_UNAUTHORIZED
                         "Incorrect email or password" None)).
Proof. intros Hg Hv. unfold login_exn; simpl. by rewrite Hg, Hv. Qed.

Lemma login_exn_unknown_email st e password ta tr :
  get_user_by_email e st = None ->
  login_exn (mkUserLogin e password) ta tr st
  = Throws (HTTPError (mkHTTPException HTTP_401_UNAUTHORIZED
                         "Incorrect email or password" None)).
Proof. intros Hg. unfold login_exn; simpl. by rewrite Hg. Qed.

(** C2. [login] does not give the same failure for every request.  With a
    password of more than 72 bytes, for which [bcrypt.checkpw] raises
    [ValueError], a login with an email that leads to a user ends in that
    exception, which the server answers with 500, while a login with an
    email that leads to no user is refused with 401: the two cases can be
    told apart.  Where the check returns [False] the two logins do get the
    same 401. *)
Theorem login_long_password_reveals_email :
  forall (st : Store) (known_email unknown_email password : string)
         (user : User) (ta tr : Z),
    get_user_by_email known_email st = Some user ->
    get_user_by_email unknown_email st = None ->
    (72 < length (list_byte_of_string password))%nat ->
    login_exn (mkUserLogin known_email password) ta tr st
    = Throws ValueError /\
    login_exn (mkUserLogin unknown_email password) ta tr st
    = Throws (HTTPError (mkHTTPException HTTP_401_UNAUTHORIZED
                           "Incorrect email or password" None)) /\
    http_status 200 (login_exn (mkUserLogin known_email password) ta tr st)
    = 500 /\
    http_status 200 (login_exn (mkUserLogin unknown_email password) ta tr st)
    = HTTP_401_UNAUTHORIZED /\
    (forall password',
        verify_password_exn password' (hashed_password user)
        = Returns false ->
        login_exn (mkUserLogin known_email password') ta tr st
        = login_exn (mkUserLogin unknown_email password') ta tr st).
Proof.
  intros st known unknown password user ta tr Hk Hu Hlen.
  assert (login_exn (mkUserLogin known password) ta tr st = Throws ValueError)
    as Hcrash.
  { unfold login_exn; simpl. rewrite Hk.
    unfold verify_password_exn, bcrypt_checkpw_exn.
    by rewrite bcrypt_hashpw_exn_long. }
  rewrite Hcrash, (login_exn_unknown_email st unknown password) by done.
  split; [done|]. split; [done|]. split; [done|]. split; [done|].
  intros password' Hfalse.
  rewrite (login_exn_not_verified st known password' user) by done.
  by rewrite login_exn_unknown_email.
Qed.

(** Where [login_exn] does not end in an exception of a library call, the
    whole-second [login] gives the same answer at the seconds of the two
    clock readings. *)
Lemma create_refresh_token_exn_whole_seconds data u tok :
  create_refresh_token_exn data u = Returns tok ->
  tok = create_refresh_token data (timegm u).
Proof.
  unfold create_refresh_token_exn, create_refresh_token, refresh_token_expire.
  unfold timedelta_of_days, datetime_add.
  destruct (_ && _); simpl; [|discriminate].
  destruct (_ && _); simpl; [|discriminate].
  intros [= <-]. unfold timedelta_days.
  replace (REFRESH_TOKEN_EXPIRE_DAYS * 86400 * MICROSECONDS)
    with (86400 * REFRESH_TOKEN_EXPIRE_DAYS * MICROSECONDS) by lia.
  by rewrite timegm_add_seconds.
Qed.

Lemma verify_password_exn_throws plain hashed ex :
  verify_password_exn plain hashed = Throws ex -> ex = ValueError.
Proof.
  unfold verify_password_exn, bcrypt_checkpw_exn, bcrypt_hashpw_exn.
  destruct (72 <? _)%nat; simpl; [congruence|].
  destruct (bcrypt_valid_salt _); simpl; congruence.
Qed.

Lemma create_access_token_exn_throws data expires_delta u ex :
  create_access_token_exn data expires_delta u = Throws ex ->
  ex = OverflowError.
Proof.
  unfold create_access_token_exn, timedelta_of_minutes, datetime_add.
  destruct (timedelta_truthy _); simpl;
    repeat (destruct (_ && _); simpl); congruence.
Qed.

Lemma create_refresh_token_exn_throws data u ex :
  create_refresh_token_exn data u = Throws ex -> ex = OverflowError.
Proof.
  unfold create_refresh_token_exn, timedelta_of_days, datetime_add.
  repeat (destruct (_ && _); simpl); congruence.
Qed.

Lemma issue_pair_exn_refines (sub email : jval) ta tr :
  let pair :=
    expires_delta ← timedelta_of_minutes ACCESS_TOKEN_EXPIRE_MINUTES;
    access_token ←
      create_access_token_exn (token_data sub email) (Some expires_delta) ta;
    refresh_token ← create_refresh_token_exn (token_data sub email) tr;
    Returns (Token_of access_token refresh_token) in
  (forall t,
      pair = Returns t ->
      t = Token_of
            (create_access_token (token_data sub email)
               (Some (timedelta_minutes ACCESS_TOKEN_EXPIRE_MINUTES))
               (timegm ta))
            (create_refresh_token (token_data sub email) (timegm tr))) /\
  (forall ex, pair = Throws ex -> ex = OverflowError).
Proof.
  intros pair. subst pair. unfold timedelta_of_minutes.
  destruct (_ && _); simpl; [|split; intros ? ?; congruence].
  destruct (create_access_token_exn _ _ ta) as [a|ex] eqn:Ha; simpl.
  2:{ apply create_access_token_exn_throws in Ha.
      split; intros ? ?; congruence. }
  destruct (create_refresh_token_exn _ tr) as [r|ex] eqn:Hr; simpl.
  2:{ apply create_refresh_token_exn_throws in Hr.
      split; intros ? ?; congruence. }
  split; [|discriminate]. intros t [= <-].
  apply create_refresh_token_exn_whole_seconds in Hr. subst r.
  replace (ACCESS_TOKEN_EXPIRE_MINUTES * 60 * MICROSECONDS)
    with (timedelta_minutes ACCESS_TOKEN_EXPIRE_MINUTES * MICROSECONDS) in Ha
    by (unfold timedelta_minutes; lia).
  apply (create_access_token_exn_whole_seconds _
           (Some (timedelta_minutes ACCESS_TOKEN_EXPIRE_MINUTES))) in Ha.
  by subst a.
Qed.

Lemma login_exn_refines user_credentials ta tr st :
  (forall user verified,
      get_user_by_email (ul_email user_credentials) st = Some user ->
      verify_password_exn (ul_password user_credentials)
        (hashed_password user) = Returns verified ->
      verify_password (ul_password user_credentials) (hashed_password user)
      = verified) ->
  (forall t,
      login_exn user_credentials ta tr st = Returns t ->
      login user_credentials (timegm ta) (timegm tr) st = Ok t) /\
  (forall e,
      login_exn user_credentials ta tr st = Throws (HTTPError e) ->
      login user_credentials (timegm ta) (timegm tr) st = Raise e).
Proof.
  intros Hagree. unfold login_exn, login.
  destruct (get_user_by_email (ul_email user_credentials) st) as [user|];
    [|split; [discriminate | by intros e [= <-]]].
  destruct (verify_password_exn _ _) as [verified|ex] eqn:Hv; simpl.
  2:{ split; [discriminate|]. intros e Hex.
      apply verify_password_exn_throws in Hv. congruence. }
  rewrite (Hagree user verified eq_refl Hv).
  destruct verified; simpl; [|split; [discriminate | by intros e [= <-]]].
  destruct (is_active user); simpl;
    [|split; [discriminate | by intros e [= <-]]].
  destruct (issue_pair_exn_refines (JStr (id user)) (JStr (email user)) ta tr)
    as [Hret Hthrow].
  split.
  - intros t Ht. by rewrite (Hret t Ht).
  - intros e He. apply Hthrow in He. discriminate.
Qed.

(** C8, as amended.  For every password of at most 72 bytes and two
    different salts of [gensalt], [get_password_hash] returns two different
    strings and [verify_password] returns [True] for the password against
    each of them.  For a longer password [get_password_hash] raises
    [ValueError]. *)
Theorem password_hash_round_trip_72 :
  forall (password : string) (salt1 salt2 : list Byte.byte),
    bcrypt_gensalt_exn salt1 -> bcrypt_gensalt_exn salt2 ->
    salt1 <> salt2 ->
    ((length (list_byte_of_string password) <= 72)%nat ->
     exists h1 h2,
       get_password_hash_exn password salt1 = Returns h1 /\
       get_password_hash_exn password salt2 = Returns h2 /\
       verify_password_exn password h1 = Returns true /\
       verify_password_exn password h2 = Returns true /\
       h1 <> h2) /\
    ((72 < length (list_byte_of_string password))%nat ->
     get_password_hash_exn password salt1 = Throws ValueError /\
     get_password_hash_exn password salt2 = Throws ValueError).
Proof.
  intros password salt1 salt2 H1 H2 Hne. split.
  - intros Hlen. unfold get_password_hash_exn, verify_password_exn.
    rewrite !bcrypt_hashpw_exn_gensalt by done. simpl.
    eexists. eexists. split; [done|]. split; [done|].
    rewrite !list_byte_of_string_of_list_byte.
    rewrite !bcrypt_checkpw_exn_hashpw by done.
    split; [done|]. split; [done|].
    intros Heq. apply Hne.
    apply (f_equal list_byte_of_string) in Heq.
    rewrite !list_byte_of_string_of_list_byte in Heq.
    apply (f_equal (take 29)) in Heq.
    destruct H1 as [Hs1 _], H2 as [Hs2 _].
    by rewrite !take_app_length' in Heq by done.
  - intros Hlen. unfold get_password_hash_exn.
    by rewrite !bcrypt_hashpw_exn_long.
Qed.

End Service.

(** ** The reference libraries meet the contract *)

Lemma ref_pos_of_string_of_pos p :
  RefLibs.pos_of_string (RefLibs.string_of_pos p) = Some p.
Proof. induction p as [q IH | q IH |]; simpl; by rewrite ?IH. Qed.

Lemma ref_jwt_decode_payload :
  forall (c p : claims) key alg key' algs now,
    RefLibs.jwt_decode (RefLibs.jwt_encode c key alg) key' algs now = inr p ->
    p = c.
Proof.
  intros c p key alg key' algs now.
  unfold RefLibs.jwt_decode, RefLibs.jwt_encode.
  rewrite ref_pos_of_string_of_pos; simpl. rewrite decode_encode.
  case_bool_decide; [|discriminate].
  destruct (c !! "exp") as [[| |e|]|]; try discriminate.
  - destruct (e <? now)%Z; [discriminate|]. by intros [= <-].
  - by intros [= <-].
Qed.

Lemma ref_jwt_decode_encode :
  forall (sub email typ key : string) (e now : Z),
    now <= e ->
    let c := <["type" := JStr typ]>
               (<["exp" := JInt e]> (token_data (JStr sub) (JStr email))) in
    RefLibs.jwt_decode (RefLibs.jwt_encode c key ALGORITHM) key [ALGORITHM] now
    = inr c.
Proof.
  intros sub email typ key e now Hle c.
  unfold RefLibs.jwt_decode, RefLibs.jwt_encode.
  rewrite ref_pos_of_string_of_pos; simpl. rewrite decode_encode.
  rewrite bool_decide_eq_true_2 by (split; [done | apply list_elem_of_here]).
  subst c. rewrite lookup_insert_ne by done. rewrite lookup_insert_eq.
  by rewrite (proj2 (Z.ltb_ge e now)).
Qed.

Lemma ref_checkpw_hashpw :
  forall password salt,
    RefLibs.gensalt salt ->
    RefLibs.checkpw password (RefLibs.hashpw password salt) = true.
Proof.
  intros password salt Hs. unfold RefLibs.checkpw, RefLibs.hashpw.
  apply bool_decide_eq_true_2. f_equal.
  rewrite (take_ge salt) by (rewrite Hs; lia).
  by rewrite take_app_length'.
Qed.

Lemma ref_jwt_decode_unexpired :
  forall (token key : string) algs (now e : Z) (p : claims),
    RefLibs.jwt_decode token key algs now = inr p ->
    p !! "exp" = Some (JInt e) -> now <= e.
Proof.
  intros token key algs now e p. unfold RefLibs.jwt_decode.
  destruct (RefLibs.pos_of_string token ≫= decode) as [[[c k] a]|];
    [|discriminate].
  case_bool_decide; [|discriminate].
  destruct (c !! "exp") as [[| |e'|]|] eqn:Hc; try discriminate.
  - destruct (e' <? now)%Z eqn:Hlt; [discriminate|].
    intros [= <-] He. apply Z.ltb_ge in Hlt. congruence.
  - intros [= <-]. congruence.
Qed.

(** ** The theorems on the sample data *)

Lemma token_kinds_do_not_cross_witness :
  let data := token_data (JStr "u1") (JStr "a@x.com") in
  (exists e,
      verify_token Demo.access_key Demo.refresh_key RefLibs.jwt_decode
        (create_access_token Demo.access_key Demo.access_minutes
           RefLibs.jwt_encode data None 1000)
        "refresh" 1001
      = Raise e /\ status_code e = HTTP_401_UNAUTHORIZED) /\
  (exists e,
      verify_token Demo.access_key Demo.refresh_key RefLibs.jwt_decode
        (create_refresh_token Demo.refresh_key Demo.refresh_days
           RefLibs.jwt_encode data 1000)
        "access" 1001
      = Raise e /\ status_code e = HTTP_401_UNAUTHORIZED).
Proof.
  exact (token_kinds_do_not_cross Demo.access_key Demo.refresh_key
           Demo.access_minutes Demo.refresh_days RefLibs.jwt_encode
           RefLibs.jwt_decode ref_jwt_decode_payload
           "u1" "a@x.com" None 1000 1001).
Defined.


Lemma register_existing_email_conflict_witness :
  email_registered Demo.store "a@x.com" /\
  register RefLibs.hashpw
    (mkUserCreate "a@x.com" "mallory" "otherpass1" (Some "M"))
    Demo.salt_cd "u3" 3000 Demo.store
  = (Raise (mkHTTPException HTTP_400_BAD_REQUEST
              "Email already registered" None), Demo.store).
Proof.
  assert (email_registered Demo.store "a@x.com") as H1
    by (exists Demo.alice; vm_compute; reflexivity).
  refine (conj H1 _).
  exact (register_existing_email_conflict Demo.access_key Demo.refresh_key
           RefLibs.jwt_decode RefLibs.hashpw RefLibs.checkpw Demo.store
           "a@x.com" (or_introl H1) "mallory" "otherpass1" (Some "M")
           Demo.salt_cd "u3" 3000).
Defined.

Lemma create_user_does_not_check_email_witness :
  user_email_index Demo.store !! "a@x.com" = Some "u1" /\
  users_db Demo.store !! "u1" = Some Demo.alice /\
  "u9" <> "u1" /\
  let user :=
    fst (create_user "a@x.com" "eve" "cdevepass1" None "u9" 4000 Demo.store) in
  let st' :=
    snd (create_user "a@x.com" "eve" "cdevepass1" None "u9" 4000 Demo.store) in
  user = mkUser "u9" "a@x.com" "eve" "cdevepass1" None 4000 true /\
  users_db st' !! "u1" = Some Demo.alice /\
  users_db st' !! "u9" = Some user /\
  user_email_index st' !! "a@x.com" = Some "u9" /\
  (str_truthy "u9" = true -> get_user_by_email "a@x.com" st' = Some user) /\
  (email Demo.alice = "a@x.com" -> ~ emails_unique st').
Proof.
  assert (user_email_index Demo.store !! "a@x.com" = Some "u1") as H1
    by (vm_compute; reflexivity).
  assert (users_db Demo.store !! "u1" = Some Demo.alice) as H2
    by (vm_compute; reflexivity).
  assert ("u9" <> "u1") as H3 by discriminate.
  refine (conj H1 (conj H2 (conj H3 _))).
  exact (proj1 (create_user_does_not_check_email RefLibs.hashpw Demo.store
                  "a@x.com" "u1" Demo.alice "eve" "cdevepass1" None "u9"
                  4000 H1 H2 H3)).
Defined.

Lemma refresh_requires_active_user_witness :
  let token :=
    create_refresh_token Demo.refresh_key Demo.refresh_days RefLibs.jwt_encode
      (token_data (JStr "u2") (JStr "b@x.com")) 1000 in
  let p : claims :=
    <["type" := JStr "refresh"]>
      (<["exp" := JInt (refresh_token_expire Demo.refresh_days 1000)]>
         (token_data (JStr "u2") (JStr "b@x.com"))) in
  verify_token Demo.access_key Demo.refresh_key RefLibs.jwt_decode token
    "refresh" 2000 = Ok p /\
  dict_get p "sub" = JStr "u2" /\
  exists e,
    refresh_token Demo.access_key Demo.refresh_key Demo.access_minutes
      Demo.refresh_days RefLibs.jwt_encode RefLibs.jwt_decode
      (mkRefreshTokenRequest token) 2000 2000 2000 Demo.store = Raise e /\
    status_code e = HTTP_401_UNAUTHORIZED.
Proof.
  intros token p.
  assert (verify_token Demo.access_key Demo.refresh_key RefLibs.jwt_decode
            token "refresh" 2000 = Ok p) as H1
    by (vm_compute; reflexivity).
  assert (dict_get p "sub" = JStr "u2") as H2 by (vm_compute; reflexivity).
  assert (users_db Demo.store !! "u2" = Some Demo.bob) as H3
    by (vm_compute; reflexivity).
  refine (conj H1 (conj H2 _)).
  exact (proj1 (refresh_requires_active_user Demo.access_key Demo.refresh_key
                  Demo.access_minutes Demo.refresh_days RefLibs.jwt_encode
                  RefLibs.jwt_decode ref_jwt_decode_payload Demo.store token
                  2000 2000 2000 p "u2" H1 H2)
           (or_intror (ex_intro _ Demo.bob (conj H3 eq_refl)))).
Defined.


Lemma password_change_keeps_access_token_witness :
  let token :=
    create_access_token Demo.access_key Demo.access_minutes RefLibs.jwt_encode
      (token_data (JStr "u1") (JStr "a@x.com")) None 1000 in
  let call :=
    change_password Demo.access_key Demo.refresh_key RefLibs.jwt_decode
      RefLibs.hashpw RefLibs.checkpw (mkChangePassword "pw123456" "newpass123")
      token Demo.salt_cd 1500 Demo.store in
  users_db Demo.store !! "u1" = Some Demo.alice /\
  1500 <= access_token_expire Demo.access_minutes None 1000 /\
  2500 <= access_token_expire Demo.access_minutes None 1000 /\
  verify_password RefLibs.checkpw "pw123456" (hashed_password Demo.alice)
  = true /\
  fst call = Ok "Password changed successfully" /\
  users_db (snd call) !! "u1"
  = Some (set_hashed_password
            (get_password_hash RefLibs.hashpw "newpass123" Demo.salt_cd)
            Demo.alice) /\
  (exists payload,
      verify_token Demo.access_key Demo.refresh_key RefLibs.jwt_decode token
        "access" 2500 = Ok payload) /\
  get_current_user_info Demo.access_key Demo.refresh_key RefLibs.jwt_decode
    token 2500 (snd call) = Ok (UserResponse_of Demo.alice) /\
  (forall credentials now,
      get_current_user_info Demo.access_key Demo.refresh_key
        RefLibs.jwt_decode credentials now (snd call)
      = get_current_user_info Demo.access_key Demo.refresh_key
          RefLibs.jwt_decode credentials now Demo.store).
Proof.
  intros token call.
  assert (users_db Demo.store !! "u1" = Some Demo.alice) as H1
    by (vm_compute; reflexivity).
  assert (1500 <= access_token_expire Demo.access_minutes None 1000) as H2
    by (vm_compute; discriminate).
  assert (2500 <= access_token_expire Demo.access_minutes None 1000) as H3
    by (vm_compute; discriminate).
  assert (verify_password RefLibs.checkpw "pw123456"
            (hashed_password Demo.alice) = true) as H4
    by (vm_compute; reflexivity).
  refine (conj H1 (conj H2 (conj H3 (conj H4 _)))).
  exact (password_change_keeps_access_token Demo.access_key Demo.refresh_key
           Demo.access_minutes RefLibs.jwt_encode RefLibs.jwt_decode
           RefLibs.hashpw RefLibs.checkpw ref_jwt_decode_encode Demo.store
           "u1" "a@x.com" Demo.alice None 1000 1500 2500 "pw123456"
           "newpass123" Demo.salt_cd H1 H2 H3 H4).
Defined.

Lemma inactive_user_passes_me_and_change_password_witness :
  let token :=
    create_access_token Demo.access_key Demo.access_minutes RefLibs.jwt_encode
      (token_data (JStr "u2") (JStr "b@x.com")) None 1000 in
  1500 <= access_token_expire Demo.access_minutes None 1000 /\
  users_db Demo.store !! "u2" = Some Demo.bob /\
  is_active Demo.bob = false /\
  get_current_user_info Demo.access_key Demo.refresh_key RefLibs.jwt_decode
    token 1500 Demo.store = Ok (UserResponse_of Demo.bob).
Proof.
  intros token.
  assert (1500 <= access_token_expire Demo.access_minutes None 1000) as H1
    by (vm_compute; discriminate).
  assert (users_db Demo.store !! "u2" = Some Demo.bob) as H2
    by (vm_compute; reflexivity).
  assert (is_active Demo.bob = false) as H3 by reflexivity.
  refine (conj H1 (conj H2 (conj H3 _))).
  exact (proj1 (proj1 (inactive_user_passes_me_and_change_password
                         Demo.access_key Demo.refresh_key Demo.access_minutes
                         RefLibs.jwt_encode RefLibs.jwt_decode RefLibs.hashpw
                         RefLibs.checkpw ref_jwt_decode_encode "u2" "b@x.com"
                         None 1000 1500 H1)
                  Demo.store Demo.bob H2 H3)).
Defined.

(** ** An end-to-end run on the reference libraries

    Register, log in, call [/me], fail and then succeed to change the
    password, and log in again with the old and with the new password. *)

Example scenario_register_login_me :
  let '(r1, st1) :=
    register RefLibs.hashpw (mkUserCreate "a@x.com" "u1" "pw123456" None)
      Demo.salt_ab "id-1" 1000 empty_store in
  let r2 :=
    login Demo.access_key Demo.refresh_key Demo.access_minutes
      Demo.refresh_days RefLibs.jwt_encode RefLibs.checkpw
      (mkUserLogin "a@x.com" "pw123456") 1001 1001 st1 in
  r1 = Ok (mkUserResponse "id-1" "a@x.com" "u1" None 1000 true) /\
  match r2 with
  | Ok t =>
      String.eqb (access_token t) (refresh_token_ t) = false /\
      token_type t = "bearer" /\
      get_current_user_info Demo.access_key Demo.refresh_key
        RefLibs.jwt_decode (access_token t) 1002 st1
      = Ok (mkUserResponse "id-1" "a@x.com" "u1" None 1000 true) /\
      response_status 200
        (get_current_user_info Demo.access_key Demo.refresh_key
           RefLibs.jwt_decode (refresh_token_ t) 1002 st1) = 401 /\
      response_status 200
        (refresh_token Demo.access_key Demo.refresh_key Demo.access_minutes
           Demo.refresh_days RefLibs.jwt_encode RefLibs.jwt_decode
           (mkRefreshTokenRequest (refresh_token_ t)) 1003 1003 1003 st1) = 200
  | Raise _ => False
  end.
Proof. vm_compute. repeat split. Qed.

Example scenario_change_password :
  let token :=
    create_access_token Demo.access_key Demo.access_minutes RefLibs.jwt_encode
      (token_data (JStr "u1") (JStr "a@x.com"))
      (Some (timedelta_minutes Demo.access_minutes)) 1000 in
  let change old new st :=
    change_password Demo.access_key Demo.refresh_key RefLibs.jwt_decode
      RefLibs.hashpw RefLibs.checkpw (mkChangePassword old new) token
      Demo.salt_cd 1500 st in
  let log_in password st :=
    login Demo.access_key Demo.refresh_key Demo.access_minutes
      Demo.refresh_days RefLibs.jwt_encode RefLibs.checkpw
      (mkUserLogin "a@x.com" password) 1600 1600 st in
  let '(r1, st1) := change "wrongpass" "newpass123" Demo.store in
  let '(r2, st2) := change "pw123456" "newpass123" st1 in
  response_status 200 r1 = 400 /\
  st1 = Demo.store /\
  r2 = Ok "Password changed successfully" /\
  response_status 200 (log_in "pw123456" st2) = 401 /\
  response_status 200 (log_in "newpass123" st2) = 200 /\
  response_status 200
    (get_current_user_info Demo.access_key Demo.refresh_key
       RefLibs.jwt_decode token 2800 st2) = 200 /\
  response_status 200
    (get_current_user_info Demo.access_key Demo.refresh_key
       RefLibs.jwt_decode token 2801 st2) = 401.
Proof. vm_compute. repeat split. Qed.

Example scenario_deactivate :
  let token :=
    create_refresh_token Demo.refresh_key Demo.refresh_days RefLibs.jwt_encode
      (token_data (JStr "u1") (JStr "a@x.com")) 1000 in
  let refresh st :=
    refresh_token Demo.access_key Demo.refresh_key Demo.access_minutes
      Demo.refresh_days RefLibs.jwt_encode RefLibs.jwt_decode
      (mkRefreshTokenRequest token) 2000 2000 2000 st in
  let '(done, st1) := deactivate_user (JStr "u1") Demo.store in
  response_status 200 (refresh Demo.store) = 200 /\
  done = true /\
  refresh st1
  = Raise (mkHTTPException HTTP_401_UNAUTHORIZED "Invalid user" None) /\
  login Demo.access_key Demo.refresh_key Demo.access_minutes
    Demo.refresh_days RefLibs.jwt_encode RefLibs.checkpw
    (mkUserLogin "a@x.com" "pw123456") 2000 2000 st1
  = Raise (mkHTTPException HTTP_403_FORBIDDEN "Account is deactivated" None).
Proof. vm_compute. repeat split. Qed.

(** ** The further properties on the sample data *)

Lemma service_steps_keep_store_wf_witness :
  let st1 :=
    snd (register RefLibs.hashpw (mkUserCreate "a@x.com" "u1" "pw123456" None)
           Demo.salt_ab "id-1" 1000 empty_store) in
  store_wf empty_store /\
  rtc (service_step Demo.access_key Demo.refresh_key RefLibs.jwt_decode
         RefLibs.hashpw RefLibs.checkpw) empty_store st1 /\
  store_wf st1.
Proof.
  intros st1.
  assert (rtc (service_step Demo.access_key Demo.refresh_key
                 RefLibs.jwt_decode RefLibs.hashpw RefLibs.checkpw)
            empty_store st1) as H2.
  { apply rtc_once. apply service_step_register; [reflexivity|].
    apply lookup_empty. }
  refine (conj store_wf_empty (conj H2 _)).
  exact (service_steps_keep_store_wf Demo.access_key Demo.refresh_key
           RefLibs.jwt_decode RefLibs.hashpw RefLibs.checkpw empty_store st1
           store_wf_empty H2).
Defined.

Lemma store_wf_lookup_by_email_witness :
  let st1 :=
    snd (register RefLibs.hashpw (mkUserCreate "a@x.com" "u1" "pw123456" None)
           Demo.salt_ab "id-1" 1000 empty_store) in
  store_wf st1 /\
  forall u,
    get_user_by_email "a@x.com" st1 = Some u ->
    email u = "a@x.com" /\
    get_user_by_id (JStr (id u)) st1 = Some u /\
    forall k' u',
      users_db st1 !! k' = Some u' -> email u' = "a@x.com" -> u' = u.
Proof.
  intros st1.
  assert (store_wf st1) as H1.
  { apply register_store_wf; [reflexivity | apply lookup_empty |].
    apply store_wf_empty. }
  refine (conj H1 _).
  exact (proj2 (store_wf_lookup_by_email st1 "a@x.com" H1)).
Defined.

Lemma reachable_emails_unique_witness :
  let st1 :=
    snd (register RefLibs.hashpw (mkUserCreate "a@x.com" "u1" "pw123456" None)
           Demo.salt_ab "id-1" 1000 empty_store) in
  reachable Demo.access_key Demo.refresh_key RefLibs.jwt_decode
    RefLibs.hashpw RefLibs.checkpw st1 /\
  emails_unique st1.
Proof.
  intros st1.
  assert (reachable Demo.access_key Demo.refresh_key RefLibs.jwt_decode
            RefLibs.hashpw RefLibs.checkpw st1) as H1.
  { apply reachable_register; [apply reachable_empty | reflexivity]. }
  refine (conj H1 _).
  exact (reachable_emails_unique Demo.access_key Demo.refresh_key
           RefLibs.jwt_decode RefLibs.hashpw RefLibs.checkpw st1 H1).
Defined.

Lemma service_steps_keep_records_witness :
  let st' := snd (deactivate_user (JStr "u1") Demo.store) in
  rtc (service_step Demo.access_key Demo.refresh_key RefLibs.jwt_decode
         RefLibs.hashpw RefLibs.checkpw) Demo.store st' /\
  users_db Demo.store !! "u1" = Some Demo.alice /\
  exists u', users_db st' !! "u1" = Some u' /\ same_identity Demo.alice u' /\
             (is_active Demo.alice = false -> is_active u' = false).
Proof.
  intros st'.
  assert (rtc (service_step Demo.access_key Demo.refresh_key
                 RefLibs.jwt_decode RefLibs.hashpw RefLibs.checkpw)
            Demo.store st') as H1.
  { apply rtc_once. apply service_step_deactivate. }
  assert (users_db Demo.store !! "u1" = Some Demo.alice) as H2
    by (vm_compute; reflexivity).
  refine (conj H1 (conj H2 _)).
  exact (service_steps_keep_records Demo.access_key Demo.refresh_key
           RefLibs.jwt_decode RefLibs.hashpw RefLibs.checkpw Demo.store st'
           "u1" Demo.alice H1 H2).
Defined.

Lemma registered_email_stays_registered_witness :
  let st' := snd (deactivate_user (JStr "u1") Demo.store) in
  email_registered Demo.store "a@x.com" /\
  rtc (service_step Demo.access_key Demo.refresh_key RefLibs.jwt_decode
         RefLibs.hashpw RefLibs.checkpw) Demo.store st' /\
  register RefLibs.hashpw
    (mkUserCreate "a@x.com" "mallory" "otherpass1" None) Demo.salt_cd "u3"
    3000 st'
  = (Raise (mkHTTPException HTTP_400_BAD_REQUEST
              "Email already registered" None), st').
Proof.
  intros st'.
  assert (email_registered Demo.store "a@x.com") as H1
    by (exists Demo.alice; vm_compute; reflexivity).
  assert (rtc (service_step Demo.access_key Demo.refresh_key
                 RefLibs.jwt_decode RefLibs.hashpw RefLibs.checkpw)
            Demo.store st') as H2.
  { apply rtc_once. apply service_step_deactivate. }
  refine (conj H1 (conj H2 _)).
  exact (proj2 (registered_email_stays_registered Demo.access_key
                  Demo.refresh_key RefLibs.jwt_decode RefLibs.hashpw
                  RefLibs.checkpw Demo.store st' "a@x.com" H1 H2)
           "mallory" "otherpass1" None Demo.salt_cd "u3" 3000).
Defined.


Lemma register_then_login_witness :
  let st' :=
    snd (register RefLibs.hashpw
           (mkUserCreate "c@x.com" "carol" "carolpass1" None) Demo.salt_ab
           "u3" 3000 Demo.store) in
  get_user_by_email "c@x.com" Demo.store = None /\
  str_truthy "u3" = true /\
  RefLibs.gensalt Demo.salt_ab /\
  login Demo.access_key Demo.refresh_key Demo.access_minutes
    Demo.refresh_days RefLibs.jwt_encode RefLibs.checkpw
    (mkUserLogin "c@x.com" "carolpass1") 3001 3001 st'
  = Ok (Token_of
          (create_access_token Demo.access_key Demo.access_minutes
             RefLibs.jwt_encode (token_data (JStr "u3") (JStr "c@x.com"))
             (Some (timedelta_minutes Demo.access_minutes)) 3001)
          (create_refresh_token Demo.refresh_key Demo.refresh_days
             RefLibs.jwt_encode (token_data (JStr "u3") (JStr "c@x.com"))
             3001)).
Proof.
  intros st'.
  assert (get_user_by_email "c@x.com" Demo.store = None) as H1
    by (vm_compute; reflexivity).
  assert (str_truthy "u3" = true) as H2 by reflexivity.
  assert (RefLibs.gensalt Demo.salt_ab) as H3 by reflexivity.
  refine (conj H1 (conj H2 (conj H3 _))).
  exact (proj1 (proj2 (register_then_login Demo.access_key Demo.refresh_key
                         Demo.access_minutes Demo.refresh_days
                         RefLibs.jwt_encode RefLibs.hashpw RefLibs.checkpw
                         RefLibs.gensalt ref_checkpw_hashpw Demo.store
                         "c@x.com" "carol" "carolpass1" None Demo.salt_ab
                         "u3" 3000 3001 3001 H1 H2 H3))).
Defined.

Lemma login_then_me_witness :
  get_user_by_email "a@x.com" Demo.store = Some Demo.alice /\
  users_db Demo.store !! id Demo.alice = Some Demo.alice /\
  verify_password RefLibs.checkpw "pw123456" (hashed_password Demo.alice)
  = true /\
  is_active Demo.alice = true /\
  2500 <= 2000 + timedelta_minutes Demo.access_minutes /\
  exists t,
    login Demo.access_key Demo.refresh_key Demo.access_minutes
      Demo.refresh_days RefLibs.jwt_encode RefLibs.checkpw
      (mkUserLogin "a@x.com" "pw123456") 2000 2000 Demo.store = Ok t /\
    token_type t = "bearer" /\
    get_current_user Demo.access_key Demo.refresh_key RefLibs.jwt_decode
      (access_token t) 2500
    = Ok (mkCurrentUser (JStr (id Demo.alice)) (JStr (email Demo.alice))) /\
    get_current_user_info Demo.access_key Demo.refresh_key RefLibs.jwt_decode
      (access_token t) 2500 Demo.store
    = Ok (UserResponse_of Demo.alice).
Proof.
  assert (get_user_by_email "a@x.com" Demo.store = Some Demo.alice) as H1
    by (vm_compute; reflexivity).
  assert (users_db Demo.store !! id Demo.alice = Some Demo.alice) as H2
    by (vm_compute; reflexivity).
  assert (verify_password RefLibs.checkpw "pw123456"
            (hashed_password Demo.alice) = true) as H3
    by (vm_compute; reflexivity).
  assert (is_active Demo.alice = true) as H4 by reflexivity.
  assert (2500 <= 2000 + timedelta_minutes Demo.access_minutes) as H5
    by (vm_compute; discriminate).
  refine (conj H1 (conj H2 (conj H3 (conj H4 (conj H5 _))))).
  exact (login_then_me Demo.access_key Demo.refresh_key Demo.access_minutes
           Demo.refresh_days RefLibs.jwt_encode RefLibs.jwt_decode
           RefLibs.checkpw ref_jwt_decode_encode Demo.store "a@x.com"
           "pw123456" Demo.alice 2000 2000 2500 H1 H2 H3 H4 H5).
Defined.

Lemma login_then_refresh_witness :
  get_user_by_email "a@x.com" Demo.store = Some Demo.alice /\
  users_db Demo.store !! id Demo.alice = Some Demo.alice /\
  verify_password RefLibs.checkpw "pw123456" (hashed_password Demo.alice)
  = true /\
  is_active Demo.alice = true /\
  str_truthy (id Demo.alice) = true /\
  str_truthy (email Demo.alice) = true /\
  9000 <= 2000 + timedelta_days Demo.refresh_days /\
  exists t,
    login Demo.access_key Demo.refresh_key Demo.access_minutes
      Demo.refresh_days RefLibs.jwt_encode RefLibs.checkpw
      (mkUserLogin "a@x.com" "pw123456") 2000 2000 Demo.store = Ok t /\
    refresh_token Demo.access_key Demo.refresh_key Demo.access_minutes
      Demo.refresh_days RefLibs.jwt_encode RefLibs.jwt_decode
      (mkRefreshTokenRequest (refresh_token_ t)) 9000 9001 9002 Demo.store
    = Ok (Token_of
            (create_access_token Demo.access_key Demo.access_minutes
               RefLibs.jwt_encode
               (token_data (JStr (id Demo.alice)) (JStr (email Demo.alice)))
               (Some (timedelta_minutes Demo.access_minutes)) 9001)
            (create_refresh_token Demo.refresh_key Demo.refresh_days
               RefLibs.jwt_encode
               (token_data (JStr (id Demo.alice)) (JStr (email Demo.alice)))
               9002)).
Proof.
  assert (get_user_by_email "a@x.com" Demo.store = Some Demo.alice) as H1
    by (vm_compute; reflexivity).
  assert (users_db Demo.store !! id Demo.alice = Some Demo.alice) as H2
    by (vm_compute; reflexivity).
  assert (verify_password RefLibs.checkpw "pw123456"
            (hashed_password Demo.alice) = true) as H3
    by (vm_compute; reflexivity).
  assert (is_active Demo.alice = true) as H4 by reflexivity.
  assert (str_truthy (id Demo.alice) = true) as H5 by reflexivity.
  assert (str_truthy (email Demo.alice) = true) as H6 by reflexivity.
  assert (9000 <= 2000 + timedelta_days Demo.refresh_days) as H7
    by (vm_compute; discriminate).
  refine (conj H1 (conj H2 (conj H3 (conj H4 (conj H5 (conj H6
            (conj H7 _))))))).
  exact (login_then_refresh Demo.access_key Demo.refresh_key
           Demo.access_minutes Demo.refresh_days RefLibs.jwt_encode
           RefLibs.jwt_decode RefLibs.checkpw ref_jwt_decode_encode
           Demo.store "a@x.com" "pw123456" Demo.alice 2000 2000 9000 9001
           9002 H1 H2 H3 H4 H5 H6 H7).
Defined.

Lemma token_expiry_boundary_witness :
  let data := token_data (JStr "u1") (JStr "a@x.com") in
  let access :=
    create_access_token Demo.access_key Demo.access_minutes RefLibs.jwt_encode
      data None 1000 in
  ((exists p,
       verify_token Demo.access_key Demo.refresh_key RefLibs.jwt_decode
         access "access" 2800 = Ok p) <->
   2800 <= access_token_expire Demo.access_minutes None 1000) /\
  ((exists p,
       verify_token Demo.access_key Demo.refresh_key RefLibs.jwt_decode
         access "access" 2801 = Ok p) <->
   2801 <= access_token_expire Demo.access_minutes None 1000).
Proof.
  intros data access. split.
  - exact (proj1 (token_expiry_boundary Demo.access_key Demo.refresh_key
                    Demo.access_minutes Demo.refresh_days RefLibs.jwt_encode
                    RefLibs.jwt_decode ref_jwt_decode_payload
                    ref_jwt_decode_encode ref_jwt_decode_unexpired
                    "u1" "a@x.com" None 1000 2800)).
  - exact (proj1 (token_expiry_boundary Demo.access_key Demo.refresh_key
                    Demo.access_minutes Demo.refresh_days RefLibs.jwt_encode
                    RefLibs.jwt_decode ref_jwt_decode_payload
                    ref_jwt_decode_encode ref_jwt_decode_unexpired
                    "u1" "a@x.com" None 1000 2801)).
Defined.



Lemma refresh_rejects_empty_claims_witness :
  2000 <= refresh_token_expire Demo.refresh_days 1000 /\
  refresh_token Demo.access_key Demo.refresh_key Demo.access_minutes
    Demo.refresh_days RefLibs.jwt_encode RefLibs.jwt_decode
    (mkRefreshTokenRequest
       (create_refresh_token Demo.refresh_key Demo.refresh_days
          RefLibs.jwt_encode (token_data (JStr "u1") (JStr "")) 1000))
    2000 2000 2000 Demo.store
  = Raise (mkHTTPException HTTP_401_UNAUTHORIZED "Invalid refresh token" None).
Proof.
  assert (2000 <= refresh_token_expire Demo.refresh_days 1000) as H1
    by (vm_compute; discriminate).
  refine (conj H1 _).
  exact (proj1 (refresh_rejects_empty_claims Demo.access_key Demo.refresh_key
                  Demo.access_minutes Demo.refresh_days RefLibs.jwt_encode
                  RefLibs.jwt_decode ref_jwt_decode_encode "u1" "" None 1000
                  2000)
           (or_intror eq_refl) H1 2000 2000 Demo.store).
Defined.

Lemma logout_ignores_store_witness :
  let token :=
    create_access_token Demo.access_key Demo.access_minutes RefLibs.jwt_encode
      (token_data (JStr "gone") (JStr "g@x.com")) None 1000 in
  1500 <= access_token_expire Demo.access_minutes None 1000 /\
  users_db Demo.store !! "gone" = None /\
  logout Demo.access_key Demo.refresh_key RefLibs.jwt_decode token 1500
  = Ok "Logged out successfully" /\
  get_current_user_info Demo.access_key Demo.refresh_key RefLibs.jwt_decode
    token 1500 Demo.store
  = Raise (mkHTTPException HTTP_404_NOT_FOUND "User not found" None).
Proof.
  intros token.
  assert (1500 <= access_token_expire Demo.access_minutes None 1000) as H1
    by (vm_compute; discriminate).
  assert (users_db Demo.store !! "gone" = None) as H2
    by (vm_compute; reflexivity).
  pose proof (proj1 (logout_ignores_store Demo.access_key Demo.refresh_key
                       Demo.access_minutes RefLibs.jwt_encode
                       RefLibs.jwt_decode ref_jwt_decode_payload
                       ref_jwt_decode_encode ref_jwt_decode_unexpired
                       "gone" "g@x.com" None 1000 1500) H1) as [Ha Hb].
  exact (conj H1 (conj H2 (conj Ha (Hb Demo.store H2)))).
Defined.

Lemma handlers_reject_wrong_kind_witness :
  let data := token_data (JStr "u1") (JStr "a@x.com") in
  let refresh :=
    create_refresh_token Demo.refresh_key Demo.refresh_days RefLibs.jwt_encode
      data 1000 in
  response_status 200
    (get_current_user_info Demo.access_key Demo.refresh_key
       RefLibs.jwt_decode refresh 1500 Demo.store)
  = HTTP_401_UNAUTHORIZED.
Proof.
  intros data refresh.
  exact (proj1 (handlers_reject_wrong_kind Demo.access_key Demo.refresh_key
                  Demo.access_minutes Demo.refresh_days RefLibs.jwt_encode
                  RefLibs.jwt_decode RefLibs.hashpw RefLibs.checkpw
                  ref_jwt_decode_payload data None 1000 1500 Demo.store)).
Defined.

Lemma get_current_user_requires_sub_and_email_witness :
  let data : claims := <["sub" := JStr "u1"]> ∅ in
  exists e,
    get_current_user Demo.access_key Demo.refresh_key RefLibs.jwt_decode
      (create_access_token Demo.access_key Demo.access_minutes
         RefLibs.jwt_encode data None 1000) 1500
    = Raise e /\ status_code e = HTTP_401_UNAUTHORIZED.
Proof.
  intros data.
  exact (proj2 (get_current_user_requires_sub_and_email Demo.access_key
                  Demo.refresh_key Demo.access_minutes RefLibs.jwt_encode
                  RefLibs.jwt_decode ref_jwt_decode_payload data None 1000
                  1500) eq_refl).
Defined.

Lemma refresh_chain_witness :
  let first :=
    create_refresh_token Demo.refresh_key Demo.refresh_days RefLibs.jwt_encode
      (token_data (JStr "u1") (JStr "a@x.com")) 1000 in
  users_db Demo.store !! "u1" = Some Demo.alice /\
  is_active Demo.alice = true /\
  str_truthy "u1" = true /\
  str_truthy "a@x.com" = true /\
  2000 <= refresh_token_expire Demo.refresh_days 1000 /\
  3000 <= refresh_token_expire Demo.refresh_days 2000 /\
  exists pair1,
    refresh_token Demo.access_key Demo.refresh_key Demo.access_minutes
      Demo.refresh_days RefLibs.jwt_encode RefLibs.jwt_decode
      (mkRefreshTokenRequest first) 2000 2000 2000 Demo.store = Ok pair1 /\
    response_status 200
      (refresh_token Demo.access_key Demo.refresh_key Demo.access_minutes
         Demo.refresh_days RefLibs.jwt_encode RefLibs.jwt_decode
         (mkRefreshTokenRequest (refresh_token_ pair1)) 3000 3000 3000
         Demo.store) = 200.
Proof.
  intros first.
  assert (users_db Demo.store !! "u1" = Some Demo.alice) as H1
    by (vm_compute; reflexivity).
  assert (is_active Demo.alice = true) as H2 by reflexivity.
  assert (str_truthy "u1" = true) as H3 by reflexivity.
  assert (str_truthy "a@x.com" = true) as H4 by reflexivity.
  assert (2000 <= refresh_token_expire Demo.refresh_days 1000) as H5
    by (vm_compute; discriminate).
  assert (3000 <= refresh_token_expire Demo.refresh_days 2000) as H6
    by (vm_compute; discriminate).
  refine (conj H1 (conj H2 (conj H3 (conj H4 (conj H5 (conj H6 _)))))).
  destruct (refresh_chain Demo.access_key Demo.refresh_key
              Demo.access_minutes Demo.refresh_days RefLibs.jwt_encode
              RefLibs.jwt_decode ref_jwt_decode_encode Demo.store "u1"
              "a@x.com" Demo.alice 1000 2000 2000 2000 3000 3000 3000
              H1 H2 H3 H4 H5 H6) as (pair1 & Ha & Hb & _).
  exists pair1. split; [exact Ha|]. rewrite Hb. reflexivity.
Defined.

Lemma register_leaves_others_witness :
  let st1 :=
    snd (register RefLibs.hashpw (mkUserCreate "a@x.com" "u1" "pw123456" None)
           Demo.salt_ab "id-1" 1000 empty_store) in
  let user_data := mkUserCreate "c@x.com" "carol" "carolpass1" None in
  let st2 := snd (register RefLibs.hashpw user_data Demo.salt_cd "id-2" 2000
                    st1) in
  store_wf st1 /\
  get_user_by_email "c@x.com" st1 = None /\
  users_db st1 !! "id-2" = None /\
  get_user_by_email "a@x.com" st2 = get_user_by_email "a@x.com" st1.
Proof.
  intros st1 user_data st2.
  assert (store_wf st1) as H1.
  { apply register_store_wf; [reflexivity | apply lookup_empty |].
    apply store_wf_empty. }
  assert (get_user_by_email (uc_email user_data) st1 = None) as H2
    by (vm_compute; reflexivity).
  assert (users_db st1 !! "id-2" = None) as H3 by (vm_compute; reflexivity).
  refine (conj H1 (conj H2 (conj H3 _))).
  refine (proj1 (register_leaves_others Demo.access_key Demo.refresh_key
                   Demo.access_minutes Demo.refresh_days RefLibs.jwt_encode
                   RefLibs.hashpw RefLibs.checkpw st1 user_data
                   Demo.salt_cd "id-2" 2000 H1 H2 H3) "a@x.com" _).
  discriminate.
Defined.

(** ** The exceptions on the sample data *)

Lemma login_long_password_reveals_email_witness :
  get_user_by_email "d@x.com" Demo.store5 = Some Demo.dave /\
  get_user_by_email "nobody@x.com" Demo.store5 = None /\
  (72 < length (list_byte_of_string Demo.password73))%nat /\
  http_status 200
    (login_exn Demo.access_key Demo.refresh_key Demo.access_minutes
       Demo.refresh_days RefLibs.jwt_encode RefLibs.digest RefLibs.valid_salt
       (mkUserLogin "d@x.com" Demo.password73) 2000000000 2000000000
       Demo.store5) = 500 /\
  http_status 200
    (login_exn Demo.access_key Demo.refresh_key Demo.access_minutes
       Demo.refresh_days RefLibs.jwt_encode RefLibs.digest RefLibs.valid_salt
       (mkUserLogin "nobody@x.com" Demo.password73) 2000000000 2000000000
       Demo.store5) = HTTP_401_UNAUTHORIZED.
Proof.
  assert (get_user_by_email "d@x.com" Demo.store5 = Some Demo.dave) as H1
    by (vm_compute; reflexivity).
  assert (get_user_by_email "nobody@x.com" Demo.store5 = None) as H2
    by (vm_compute; reflexivity).
  assert (72 < length (list_byte_of_string Demo.password73))%nat as H3
    by (vm_compute; lia).
  pose proof (login_long_password_reveals_email Demo.access_key
                Demo.refresh_key Demo.access_minutes Demo.refresh_days
                RefLibs.jwt_encode RefLibs.digest RefLibs.valid_salt
                Demo.store5 "d@x.com" "nobody@x.com" Demo.password73
                Demo.dave 2000000000 2000000000 H1 H2 H3)
    as (_ & _ & Ha & Hb & _).
  exact (conj H1 (conj H2 (conj H3 (conj Ha Hb)))).
Defined.

Lemma password_hash_round_trip_72_witness :
  bcrypt_gensalt_exn RefLibs.valid_salt Demo.salt29_a /\
  bcrypt_gensalt_exn RefLibs.valid_salt Demo.salt29_b /\
  Demo.salt29_a <> Demo.salt29_b /\
  (length (list_byte_of_string "pw123456") <= 72)%nat /\
  exists h1 h2,
    get_password_hash_exn RefLibs.digest RefLibs.valid_salt "pw123456"
      Demo.salt29_a = Returns h1 /\
    get_password_hash_exn RefLibs.digest RefLibs.valid_salt "pw123456"
      Demo.salt29_b = Returns h2 /\
    verify_password_exn RefLibs.digest RefLibs.valid_salt "pw123456" h1
    = Returns true /\
    verify_password_exn RefLibs.digest RefLibs.valid_salt "pw123456" h2
    = Returns true /\
    h1 <> h2.
Proof.
  assert (bcrypt_gensalt_exn RefLibs.valid_salt Demo.salt29_a) as H1
    by (split; reflexivity).
  assert (bcrypt_gensalt_exn RefLibs.valid_salt Demo.salt29_b) as H2
    by (split; reflexivity).
  assert (Demo.salt29_a <> Demo.salt29_b) as H3 by discriminate.
  assert (length (list_byte_of_string "pw123456") <= 72)%nat as H4
    by (vm_compute; lia).
  refine (conj H1 (conj H2 (conj H3 (conj H4 _)))).
  exact (proj1 (password_hash_round_trip_72 RefLibs.digest RefLibs.valid_salt
                  "pw123456" Demo.salt29_a Demo.salt29_b H1 H2 H3) H4).
Defined.

(** At a password of 73 bytes [get_password_hash] raises, so there is no
    hash for [verify_password] to accept. *)
Lemma password_hash_round_trip_fails_over_72_bytes :
  bcrypt_gensalt_exn RefLibs.valid_salt Demo.salt29_a /\
  length (list_byte_of_string Demo.password73) = 73%nat /\
  get_password_hash_exn RefLibs.digest RefLibs.valid_salt Demo.password73
    Demo.salt29_a = Throws ValueError /\
  ~ (exists h,
        get_password_hash_exn RefLibs.digest RefLibs.valid_salt
          Demo.password73 Demo.salt29_a = Returns h /\
        verify_password_exn RefLibs.digest RefLibs.valid_salt
          Demo.password73 h = Returns true).
Proof.
  assert (get_password_hash_exn RefLibs.digest RefLibs.valid_salt
            Demo.password73 Demo.salt29_a = Throws ValueError) as Hraise
    by (vm_compute; reflexivity).
  split; [split; reflexivity|]. split; [vm_compute; reflexivity|].
  split; [exact Hraise|].
  intros (h & Hh & _). rewrite Hraise in Hh. discriminate.
Qed.

Lemma expires_delta_edges_witness :
  let data := token_data (JStr "u1") (JStr "a@x.com") in
  let issue delta :=
    create_access_token_exn Demo.access_key Demo.access_minutes
      RefLibs.jwt_encode data (Some delta) 1000500000 in
  let exp_token (e : Z) :=
    RefLibs.jwt_encode
      (<["type" := JStr "access"]> (<["exp" := JInt e]> data))
      Demo.access_key ALGORITHM in
  issue (-1) = Returns (exp_token 1000) /\
  timegm (1000500000 + -1) = timegm 1000500000 /\
  get_current_user Demo.access_key Demo.refresh_key RefLibs.jwt_decode
    (exp_token 1000) (timegm 1000500000)
  = Ok (mkCurrentUser (JStr "u1") (JStr "a@x.com")) /\
  issue (-1000000) = Returns (exp_token 999) /\
  exists err,
    get_current_user Demo.access_key Demo.refresh_key RefLibs.jwt_decode
      (exp_token 999) (timegm 1000500000) = Raise err /\
    status_code err = HTTP_401_UNAUTHORIZED.
Proof.
  intros data issue exp_token.
  assert (issue (-1) = Returns (exp_token 1000)) as H1
    by (vm_compute; reflexivity).
  assert (timegm (1000500000 + -1) = timegm 1000500000) as H2
    by (vm_compute; reflexivity).
  assert (issue (-1000000) = Returns (exp_token 999)) as H3
    by (vm_compute; reflexivity).
  pose proof (expires_delta_edges Demo.access_key Demo.refresh_key
                Demo.access_minutes RefLibs.jwt_encode RefLibs.jwt_decode
                ref_jwt_decode_payload ref_jwt_decode_encode
                ref_jwt_decode_unexpired "u1" "a@x.com" 1000500000)
    as (_ & _ & _ & Hrefused & Haccepted & _).
  refine (conj H1 (conj H2 (conj _ (conj H3 _)))).
  - refine (Haccepted (-1) (exp_token 1000) _ H2 H1). reflexivity.
  - refine (Hrefused (-1000000) (exp_token 999) _ H3). discriminate.
Defined.
